(** * BlockPlain RAG: the ingestion pipeline, embedded and verified

    A shallow embedding of
      - [app/connectors/stream.py]  (class [BlockchainDataStream]),
      - [pipeline/embeddings.py]    (class [EmbeddingEngine]),
      - [pipeline/rag.py]           (the row selection of [build_pipeline]),
    followed by the properties the specification states about them. *)

From Stdlib Require Import ZArith List String Ascii Bool Lia.
From Stdlib Require Import DecimalString DecimalZ.
From Stdlib Require Import PrimFloat.
Import ListNotations.

Open Scope string_scope.

#[local] Set Warnings "-register-all".

(* ================================================================== *)
(** * Python values                                                    *)
(* ================================================================== *)

(** The records come out of a JSON decoder, so a value is one of the
    JSON-shaped Python objects.  Strings are sequences of code points
    below 256.  A [float] is carried by its [repr] text: the normaliser
    only ever prints it.  A [dict] keeps its insertion order, which
    [str] shows, hence an association list. *)
Inductive pyval : Type :=
| VNone
| VBool (b : bool)
| VInt (z : Z)
| VFloat (r : string)
| VStr (s : string)
| VList (l : list pyval)
| VDict (d : list (string * pyval)).

Definition pydict : Type := list (string * pyval).

(** Builtin exceptions the embedded code can meet.  Every one of them is
    a subclass of [Exception], which is what the handlers catch. *)
Inductive exn : Type :=
| TypeError
| KeyError (key : string)
| OtherException (msg : string).

Inductive result (A : Type) : Type :=
| Ok (a : A)
| Raise (e : exn).
Arguments Ok {A} a.
Arguments Raise {A} e.

Module Py.

Definition NL : string := String "010"%char EmptyString.
Definition squote : ascii := "039"%char.
Definition dquote : ascii := "034"%char.
Definition backslash : ascii := "092"%char.

(** ** [dict] *)

Fixpoint dict_get (k : string) (d : pydict) : option pyval :=
  match d with
  | [] => None
  | (k', v) :: d' => if String.eqb k k' then Some v else dict_get k d'
  end.

(** [d[k] = v]: an existing key keeps its place, a new one goes last. *)
Fixpoint dict_set (k : string) (v : pyval) (d : pydict) : pydict :=
  match d with
  | [] => [(k, v)]
  | (k', v') :: d' =>
      if String.eqb k k' then (k', v) :: d' else (k', v') :: dict_set k v d'
  end.

(** [d.get(k, default)] *)
Definition get (d : pydict) (k : string) (default : pyval) : pyval :=
  match dict_get k d with
  | Some v => v
  | None => default
  end.

(** ** [str] and [repr] *)

(** [str(int)]: decimal digits, a leading minus sign when negative. *)
Definition str_int (z : Z) : string := NilZero.string_of_int (Z.to_int z).

Fixpoint has_char (c : ascii) (s : string) : bool :=
  match s with
  | EmptyString => false
  | String c' s' => Ascii.eqb c c' || has_char c s'
  end.

Definition hex_digit (n : nat) : ascii :=
  if Nat.ltb n 10 then ascii_of_nat (48 + n) else ascii_of_nat (87 + n).

Definition hex_escape (n : nat) : string :=
  String backslash
    (String "x" (String (hex_digit (n / 16)) (String (hex_digit (n mod 16)) ""))).

(** One character of [repr(str)], following CPython's [unicode_repr]. *)
Definition escape_char (quote : ascii) (c : ascii) : string :=
  let n := nat_of_ascii c in
  if Ascii.eqb c quote || Ascii.eqb c backslash then String backslash (String c "")
  else if Nat.eqb n 9 then String backslash "t"
  else if Nat.eqb n 10 then String backslash "n"
  else if Nat.eqb n 13 then String backslash "r"
  else if Nat.ltb n 32 || Nat.eqb n 127 then hex_escape n
  else if Nat.ltb n 127 then String c ""
  else if Nat.leb n 160 || Nat.eqb n 173 then hex_escape n
  else String c "".

Fixpoint escape_all (quote : ascii) (s : string) : string :=
  match s with
  | EmptyString => EmptyString
  | String c s' => escape_char quote c ++ escape_all quote s'
  end.

(** [repr(str)]: single quotes, unless the text has a single quote and
    no double quote. *)
Definition repr_str (s : string) : string :=
  let quote :=
    if has_char squote s && negb (has_char dquote s) then dquote else squote in
  String quote (escape_all quote s ++ String quote "").

(** [", ".join(parts)] *)
Fixpoint join_comma (parts : list string) : string :=
  match parts with
  | [] => ""
  | [p] => p
  | p :: rest => p ++ ", " ++ join_comma rest
  end.

Fixpoint repr (v : pyval) : string :=
  match v with
  | VNone => "None"
  | VBool true => "True"
  | VBool false => "False"
  | VInt z => str_int z
  | VFloat r => r
  | VStr s => repr_str s
  | VList l => "[" ++ join_comma (map repr l) ++ "]"
  | VDict d =>
      "{" ++ join_comma (map (fun kv => repr_str (fst kv) ++ ": " ++ repr (snd kv)) d)
          ++ "}"
  end.

(** [str(v)], which is also what an f-string field [{v}] prints. *)
Definition str (v : pyval) : string :=
  match v with
  | VStr s => s
  | _ => repr v
  end.

(** [iter(v)]: the items a [for] loop sees, or [TypeError]. *)
Fixpoint chars (s : string) : list pyval :=
  match s with
  | EmptyString => []
  | String c s' => VStr (String c "") :: chars s'
  end.

Definition iter (v : pyval) : result (list pyval) :=
  match v with
  | VList l => Ok l
  | VStr s => Ok (chars s)
  | VDict d => Ok (map (fun kv => VStr (fst kv)) d)
  | VNone | VBool _ | VInt _ | VFloat _ => Raise TypeError
  end.

(** [enumerate(l)], counting from [start]. *)
Fixpoint enumerate_from (start : Z) (l : list pyval) : list (Z * pyval) :=
  match l with
  | [] => []
  | x :: l' => (start, x) :: enumerate_from (start + 1) l'
  end.

Definition enumerate (l : list pyval) : list (Z * pyval) := enumerate_from 0 l.

(** [len(l)] as a Python [int]. *)
Definition len {A : Type} (l : list A) : Z := Z.of_nat (List.length l).

(** [v == "s"] for a string literal [s]. *)
Definition eq_str (v : pyval) (s : string) : bool :=
  match v with
  | VStr s' => String.eqb s' s
  | _ => false
  end.

(** [v[k] = x] for a string key: only a [dict] takes it. *)
Definition setitem (v : pyval) (k : string) (x : pyval) : result pydict :=
  match v with
  | VDict d => Ok (dict_set k x d)
  | _ => Raise TypeError
  end.

(** [v[k]] for a string key. *)
Definition getitem (v : pyval) (k : string) : result pyval :=
  match v with
  | VDict d =>
      match dict_get k d with
      | Some x => Ok x
      | None => Raise (KeyError k)
      end
  | _ => Raise TypeError
  end.

End Py.


(* ================================================================== *)
(** * The world the coroutines act on                                  *)
(* ================================================================== *)

(** What an observer of the supervisor can see, in the order it happens. *)
Inductive event : Type :=
| EvPut (item : pydict)                (* [queue.put(item)] *)
| EvGet (item : pydict)                (* [queue.get()] handed [item] out *)
| EvLogInfo (msg : string)             (* [logger.info(msg)] *)
| EvLogError (msg : string) (e : exn)  (* [logger.error(f"{msg}{e}")] *)
| EvSleep (seconds : Z)                (* [asyncio.sleep(seconds)] *)
| EvSubscribe (round : nat)            (* [connector.stream_updates()] opened *)
| EvCreateTask.                        (* [asyncio.create_task(_stream_updates())] *)

(** [queue] is the [asyncio.Queue] of the stream object (unbounded, first
    in first out); [added] are the rows the Pathway connector context was
    given through [add_data], oldest first. *)
Record world : Type := mkWorld {
  queue : list pydict;
  added : list pydict;
  trace : list event
}.

Definition empty_world : world := mkWorld [] [] [].

(** A coroutine: it runs on a world, and either returns or raises; what it
    did before raising stays done. *)
Definition M (A : Type) : Type := world -> result A * world.

Definition ret {A : Type} (a : A) : M A := fun w => (Ok a, w).

Definition bind {A B : Type} (m : M A) (k : A -> M B) : M B :=
  fun w =>
    match m w with
    | (Ok a, w') => k a w'
    | (Raise e, w') => (Raise e, w')
    end.

Definition lift {A : Type} (r : result A) : M A := fun w => (r, w).

Definition raise {A : Type} (e : exn) : M A := fun w => (Raise e, w).

(** [try: body / except Exception as e: handler e] *)
Definition try_except {A : Type} (body : M A) (handler : exn -> M A) : M A :=
  fun w =>
    match body w with
    | (Ok a, w') => (Ok a, w')
    | (Raise e, w') => handler e w'
    end.

Declare Scope coro_scope.
Delimit Scope coro_scope with coro.
Notation "x <- m ;; k" := (bind m (fun x => k))
  (at level 61, m at next level, right associativity) : coro_scope.
Notation "m ;; k" := (bind m (fun _ => k))
  (at level 61, right associativity) : coro_scope.
Open Scope coro_scope.

(** [for x in l: body x] *)
Fixpoint for_each {A : Type} (l : list A) (body : A -> M unit) : M unit :=
  match l with
  | [] => ret tt
  | x :: l' => body x ;; for_each l' body
  end.

Definition emit (ev : event) : M unit :=
  fun w => (Ok tt, mkWorld (queue w) (added w) (trace w ++ [ev])).

(** [await queue.put(item)]: the queue has no bound, so this never waits. *)
Definition queue_put (item : pydict) : M unit :=
  fun w => (Ok tt, mkWorld (queue w ++ [item]) (added w) (trace w ++ [EvPut item])).

(** [await queue.get()]: [None] while the queue is empty (the caller stays
    suspended), else the oldest item. *)
Definition queue_get : world -> option (pydict * world) :=
  fun w =>
    match queue w with
    | [] => None
    | item :: rest => Some (item, mkWorld rest (added w) (trace w ++ [EvGet item]))
    end.

(** [context.add_data(item)] *)
Definition add_data (item : pydict) : M unit :=
  fun w => (Ok tt, mkWorld (queue w) (added w ++ [item]) (trace w)).

(* ================================================================== *)
(** * [app/connectors/stream.py]: class [BlockchainDataStream]         *)
(* ================================================================== *)

(** One run of [connector.stream_updates()]: the updates it yields, then
    how the iteration ends, by raising ([Some e]) or by running out
    ([None]). *)
Record subscription : Type := mkSubscription {
  sub_updates : list pyval;
  sub_end : option exn
}.

(** The upstream collaborator, [connectors.blockplain.BlockPlainConnector],
    seen from its three call sites.  A fetch returns the decoded JSON or
    raises; [stream_updates n] is what the [n]-th subscription delivers. *)
Record BlockPlainConnector : Type := mkConnector {
  get_blocks : result pyval;
  get_transactions : result pyval;
  stream_updates : nat -> subscription
}.

(** How the [while] loop of [_stream_updates] stands when the observer
    stops watching. *)
Inductive loop_status : Type :=
| Returned    (* the loop condition failed and the coroutine returned *)
| Running.    (* the loop is at its head, about to test the condition *)

Section BlockchainDataStream.

Variable connector : BlockPlainConnector.

(** [stop_is_set n]: the answer of [self._stop_event.is_set()] at the
    head of round [n] of the loop.  [stop()] sets the event from another
    task, at any suspension point, so the answer is the environment's. *)
Variable stop_is_set : nat -> bool.

Definition _process_block (block : pyval) : M unit :=
  block <- lift (Py.setitem block "_document_type" (VStr "block")) ;;
  let text :=
    "Block at [" ++ Py.str (Py.get block "X" (VStr "?")) ++ ", "
                 ++ Py.str (Py.get block "Y" (VStr "?")) ++ "]" ++ Py.NL in
  let text := text ++ "Hash: " ++ Py.str (Py.get block "Hash" (VStr "?")) ++ Py.NL in
  let text :=
    text ++ "Previous Hashes: X=" ++ Py.str (Py.get block "PrevHashX" (VStr "?"))
         ++ ", Y=" ++ Py.str (Py.get block "PrevHashY" (VStr "?")) ++ Py.NL in
  let text := text ++ "Context: " ++ Py.str (Py.get block "Context" (VStr "?")) ++ Py.NL in
  let text :=
    text ++ "Timestamp: " ++ Py.str (Py.get block "Timestamp" (VStr "?")) ++ Py.NL in
  let text := text ++ "Transactions:" ++ Py.NL in
  data <- lift (Py.iter (Py.get block "Data" (VList []))) ;;
  let text :=
    fold_left
      (fun text i_tx =>
         text ++ "  " ++ Py.str_int (fst i_tx + 1) ++ ". " ++ Py.str (snd i_tx) ++ Py.NL)
      (Py.enumerate data) text in
  let block := Py.dict_set "_text" (VStr text) block in
  let block :=
    Py.dict_set "_id"
      (VStr ("block_" ++ Py.str (Py.get block "X" (VInt 0)) ++ "_"
                      ++ Py.str (Py.get block "Y" (VInt 0))))
      block in
  queue_put block.

Definition _process_transaction (tx : pyval) : M unit :=
  tx <- lift (Py.setitem tx "_document_type" (VStr "transaction")) ;;
  let text := "Transaction " ++ Py.str (Py.get tx "ID" (VStr "?")) ++ Py.NL in
  let text := text ++ "Data: " ++ Py.str (Py.get tx "Data" (VStr "?")) ++ Py.NL in
  let tx := Py.dict_set "_text" (VStr text) tx in
  let tx := Py.dict_set "_id" (VStr ("tx_" ++ Py.str (Py.get tx "ID" (VStr "")))) tx in
  queue_put tx.

Definition _load_initial_state : M unit :=
  try_except
    (blocks <- lift (get_blocks connector) ;;
     blocks_items <- lift (Py.iter blocks) ;;
     for_each blocks_items _process_block ;;
     txs <- lift (get_transactions connector) ;;
     txs_items <- lift (Py.iter txs) ;;
     for_each txs_items _process_transaction ;;
     emit (EvLogInfo ("Loaded initial state: " ++ Py.str_int (Py.len blocks_items)
                        ++ " blocks, " ++ Py.str_int (Py.len txs_items)
                        ++ " transactions")))
    (fun e => emit (EvLogError "Error loading initial state: " e)).

(** The body of [async for update in ...]. *)
Definition on_update (update : pyval) : M unit :=
  type <- lift (Py.getitem update "type") ;;
  if Py.eq_str type "newBlock" then
    data <- lift (Py.getitem update "data") ;;
    _process_block data
  else
    type <- lift (Py.getitem update "type") ;;
    if Py.eq_str type "newTransaction" then
      data <- lift (Py.getitem update "data") ;;
      _process_transaction data
    else ret tt.

(** Round [n] of the [while] loop, the [try] block: the [async for] over
    the [n]-th subscription, which ends when the subscription does. *)
Definition stream_attempt (n : nat) : M unit :=
  emit (EvSubscribe n) ;;
  for_each (sub_updates (stream_updates connector n)) on_update ;;
  match sub_end (stream_updates connector n) with
  | Some e => raise e
  | None => ret tt
  end.

(** Round [n] of the [while] loop: the whole [try] statement. *)
Definition stream_round (n : nat) : M unit :=
  try_except
    (stream_attempt n)
    (fun e =>
       emit (EvLogError "Error streaming updates: " e) ;;
       emit (EvSleep 5)).

(** [_stream_updates], watched for [fuel] rounds from round [n] on. *)
Fixpoint _stream_updates (fuel : nat) (n : nat) : M loop_status :=
  match fuel with
  | O => ret Running
  | S fuel' =>
      if negb (stop_is_set n)
      then stream_round n ;; _stream_updates fuel' (S n)
      else ret Returned
  end.

(** [start]: the created task is only scheduled; its body runs once
    [start] has returned. *)
Definition start : M unit :=
  _load_initial_state ;;
  emit EvCreateTask.

(** [start], then the task it created, watched for [fuel] rounds. *)
Definition start_then_stream (fuel : nat) : M loop_status :=
  start ;;
  _stream_updates fuel 0.

(** One turn of the loop in [pathway_connector]'s [run]: nothing happens
    while [get] is suspended on an empty queue.  ([task_done] only counts
    for [queue.join], which nothing calls.) *)
Definition pathway_connector_turn (w : world) : world :=
  match queue_get w with
  | None => w
  | Some (item, w') => snd (add_data item w')
  end.

End BlockchainDataStream.

(* ================================================================== *)
(** * [pipeline/embeddings.py]: class [EmbeddingEngine]                *)
(* ================================================================== *)

(** The [SentenceTransformer] object held in [self.model].  [encode] is
    called with one text ([encode_one], a row) or with a list of texts
    ([encode_many], a matrix); either call may raise.  The array it
    returns is taken as the list that [tolist()] makes of it. *)
Record SentenceTransformer : Type := mkModel {
  encode_one : string -> result (list float);
  encode_many : list string -> result (list (list float));
  get_sentence_embedding_dimension : Z
}.

(** [[x] * n]: a list of [n] copies, empty when [n] is not positive. *)
Definition list_times {A : Type} (x : A) (n : Z) : list A := repeat x (Z.to_nat n).

Section EmbeddingEngine.

Variable model : SentenceTransformer.

Definition embed_text (text : string) : M (list float) :=
  try_except
    (embedding <- lift (encode_one model text) ;;
     ret embedding)
    (fun e =>
       emit (EvLogError "Error generating embedding: " e) ;;
       ret (list_times 0%float (get_sentence_embedding_dimension model))).

Definition embed_batch (texts : list string) : M (list (list float)) :=
  try_except
    (embeddings <- lift (encode_many model texts) ;;
     ret embeddings)
    (fun e =>
       emit (EvLogError "Error generating batch embeddings: " e) ;;
       ret (list_times
              (list_times 0%float (get_sentence_embedding_dimension model))
              (Py.len texts))).

End EmbeddingEngine.

(* ================================================================== *)
(** * [pipeline/rag.py]: the rows of [build_pipeline]                  *)
(* ================================================================== *)

(** A row of [processed_data]. *)
Record Document : Type := mkDocument {
  id : pyval;
  document_type : pyval;
  text : pyval;
  metadata : pydict
}.

(** [input_table.select(id=pw.this["_id"], document_type=pw.this["_document_type"],
    text=pw.this["_text"], metadata=pw.this)] on one input row. *)
Definition select_processed (row : pydict) : result Document :=
  match Py.getitem (VDict row) "_id" with
  | Raise e => Raise e
  | Ok i =>
      match Py.getitem (VDict row) "_document_type" with
      | Raise e => Raise e
      | Ok t =>
          match Py.getitem (VDict row) "_text" with
          | Raise e => Raise e
          | Ok x => Ok (mkDocument i t x row)
          end
      end
  end.

(* ================================================================== *)
(** * Notions the properties are stated with                           *)
(* ================================================================== *)

(** The two kinds of source record, and the coroutine that handles each. *)
Inductive kind : Type :=
| Block
| Transaction.

Definition process (k : kind) : pyval -> M unit :=
  match k with
  | Block => _process_block
  | Transaction => _process_transaction
  end.

(** The item that handling [raw] puts on a queue that was empty, or the
    exception it raises. *)
Definition staged (k : kind) (raw : pyval) : result pydict :=
  match process k raw empty_world with
  | (Ok _, w) =>
      match queue w with
      | [item] => Ok item
      | _ => Raise (OtherException "no single item")
      end
  | (Raise e, _) => Raise e
  end.

(** The specification's [normalize(kind, raw_record) -> Document]: the
    record goes through its coroutine, and the queued item through the
    row selection of [build_pipeline]. *)
Definition normalize (k : kind) (raw : pydict) : result Document :=
  match staged k (VDict raw) with
  | Ok item => select_processed item
  | Raise e => Raise e
  end.

(** What identifies a source record upstream: the position of a block,
    the identifier of a transaction; [None] for a field it lacks. *)
Definition source_identity (k : kind) (raw : pydict) : kind * list (option pyval) :=
  match k with
  | Block => (Block, [Py.dict_get "X" raw; Py.dict_get "Y" raw])
  | Transaction => (Transaction, [Py.dict_get "ID" raw])
  end.

(** The three fields normalisation writes into the record. *)
Definition derived_key (k : string) : bool :=
  String.eqb k "_document_type" || String.eqb k "_text" || String.eqb k "_id".

Definition source_fields (d : pydict) : pydict :=
  filter (fun kv => negb (derived_key (fst kv))) d.

(** A field as the text shows it: its [str], or the placeholder. *)
Definition shown (raw : pydict) (field : string) : string :=
  match Py.dict_get field raw with
  | Some v => Py.str v
  | None => "?"
  end.

(** The fields of a block that are printed in a slot of their own. *)
Definition block_scalar_fields : list string :=
  ["X"; "Y"; "Hash"; "PrevHashX"; "PrevHashY"; "Context"; "Timestamp"].

(** Every field of a block the normaliser reads. *)
Definition block_consumed_fields : list string := block_scalar_fields ++ ["Data"].

(** The fields among [fields] that [raw] lacks. *)
Definition missing (raw : pydict) (fields : list string) : list string :=
  filter
    (fun f => match Py.dict_get f raw with None => true | Some _ => false end)
    fields.

Fixpoint count_char (c : ascii) (s : string) : nat :=
  match s with
  | EmptyString => 0
  | String c' s' => (if Ascii.eqb c c' then 1 else 0) + count_char c s'
  end.

(** The numbered lines of the transaction listing, from number [start]. *)
Fixpoint listing (start : Z) (data : list pyval) : string :=
  match data with
  | [] => ""
  | tx :: rest =>
      "  " ++ Py.str_int start ++ ". " ++ Py.str tx ++ Py.NL ++ listing (start + 1) rest
  end.

(** The text of a block, slot by slot, then the listing of [data]. *)
Definition block_text (raw : pydict) (data : list pyval) : string :=
  "Block at [" ++ shown raw "X" ++ ", " ++ shown raw "Y" ++ "]" ++ Py.NL
  ++ "Hash: " ++ shown raw "Hash" ++ Py.NL
  ++ "Previous Hashes: X=" ++ shown raw "PrevHashX"
  ++ ", Y=" ++ shown raw "PrevHashY" ++ Py.NL
  ++ "Context: " ++ shown raw "Context" ++ Py.NL
  ++ "Timestamp: " ++ shown raw "Timestamp" ++ Py.NL
  ++ "Transactions:" ++ Py.NL
  ++ listing 1 data.

Definition transaction_text (raw : pydict) : string :=
  "Transaction " ++ shown raw "ID" ++ Py.NL ++ "Data: " ++ shown raw "Data" ++ Py.NL.

Definition block_id (raw : pydict) : string :=
  "block_" ++ Py.str (Py.get raw "X" (VInt 0)) ++ "_" ++ Py.str (Py.get raw "Y" (VInt 0)).

Definition transaction_id (raw : pydict) : string :=
  "tx_" ++ Py.str (Py.get raw "ID" (VStr "")).

(** [raw] after the three writes of normalisation. *)
Definition stamped (type_name txt ident : string) (raw : pydict) : pydict :=
  Py.dict_set "_id" (VStr ident)
    (Py.dict_set "_text" (VStr txt)
       (Py.dict_set "_document_type" (VStr type_name) raw)).

(** Projections of a trace. *)
Definition puts (tr : list event) : list pydict :=
  flat_map (fun ev => match ev with EvPut item => [item] | _ => [] end) tr.

Definition is_control (ev : event) : bool :=
  match ev with
  | EvSubscribe _ | EvSleep _ => true
  | _ => false
  end.

Definition control (tr : list event) : list event := filter is_control tr.

(** [w] after the producer side has done [evs]: the trace grows by [evs],
    the queue by the items [evs] puts, and nothing is taken out. *)
Definition extend (w : world) (evs : list event) : world :=
  mkWorld (queue w ++ puts evs) (added w) (trace w ++ evs).

(** A coroutine of the producer side: all it does to the world is extend it. *)
Definition producer {A : Type} (m : M A) : Prop :=
  forall w, exists evs, snd (m w) = extend w evs.

Definition is_put (ev : event) : Prop :=
  match ev with
  | EvPut _ => True
  | _ => False
  end.

(** A connector whose subscriptions deliver nothing and end without error. *)
Definition quiet_connector : BlockPlainConnector :=
  mkConnector (Ok (VList [])) (Ok (VList [])) (fun _ => mkSubscription [] None).

(** A connector whose pending-transaction fetch fails and whose
    subscriptions drop at once. *)
Definition flaky_connector : BlockPlainConnector :=
  mkConnector
    (Ok (VList [VDict [("X", VInt 0); ("Y", VInt 0)]; VDict [("X", VInt 0); ("Y", VInt 1)]]))
    (Raise (OtherException "timeout"))
    (fun _ => mkSubscription [] (Some (OtherException "connection closed"))).

(** The scenario of the specification: two blocks and one pending
    transaction in the snapshot, then one new block on the subscription,
    which then drops. *)
Definition sample_connector : BlockPlainConnector :=
  mkConnector
    (Ok (VList [VDict [("X", VInt 0); ("Y", VInt 0)]; VDict [("X", VInt 0); ("Y", VInt 1)]]))
    (Ok (VList [VDict [("ID", VStr "t1"); ("Data", VStr "pay")]]))
    (fun _ =>
       mkSubscription
         [VDict [("type", VStr "newBlock"); ("data", VDict [("X", VInt 1); ("Y", VInt 0)])]]
         (Some (OtherException "connection closed"))).

(** ** Interleavings of the two producers and the consumer *)

Inductive source : Type :=
| InitialLoad
| LiveUpdate.

Inductive action : Type :=
| Submit (src : source) (k : kind) (raw : pyval)  (* a producer handles [raw] *)
| ConsumerTurn.                                   (* the consumer loop turns once *)

Definition perform (a : action) (w : world) : world :=
  match a with
  | Submit _ k raw => snd (process k raw w)
  | ConsumerTurn => pathway_connector_turn w
  end.

Definition run (acts : list action) (w : world) : world :=
  fold_left (fun w a => perform a w) acts w.

(** The load submits a block, the live loop a transaction, the consumer
    turns, the load submits another block, the consumer turns twice. *)
Definition sample_interleaving : list action :=
  [Submit InitialLoad Block (VDict [("X", VInt 0)]);
   Submit LiveUpdate Transaction (VDict [("ID", VStr "t")]);
   ConsumerTurn;
   Submit InitialLoad Block (VDict [("X", VInt 1)]);
   ConsumerTurn; ConsumerTurn].

(** Who submitted what, in submission order. *)
Definition submissions (acts : list action) : list (source * pydict) :=
  flat_map
    (fun a =>
       match a with
       | Submit src k raw =>
           match staged k raw with
           | Ok item => [(src, item)]
           | Raise _ => []
           end
       | ConsumerTurn => []
       end)
    acts.

(* ================================================================== *)
(** * [pipeline/rag.py]: embedding the rows, answering queries         *)
(* ================================================================== *)

(** A row of [embedded_data]: a row of [processed_data] with its vector. *)
Record EmbeddedDocument : Type := mkEmbeddedDocument {
  e_id : pyval;
  e_document_type : pyval;
  e_text : pyval;
  e_metadata : pydict;
  e_embedding : list float
}.

(** One hit of [self.index.query], as [query_handler] reads it. *)
Record IndexResult : Type := mkIndexResult {
  r_id : pyval;
  r_document_type : pyval;
  r_text : pyval;
  r_score : float;
  r_metadata : pydict
}.

(** The dictionary [query_handler] builds for a hit, with its five keys
    ["id"], ["document_type"], ["text"], ["score"], ["metadata"]. *)
Record ResultItem : Type := mkResultItem {
  item_id : pyval;
  item_document_type : pyval;
  item_text : pyval;
  item_score : float;
  item_metadata : pydict
}.

Section BlockchainRAGPipeline.

Variable model : SentenceTransformer.

(** [self.index.query(query_embedding=v, k=top_k)] at the moment of the
    call: the hits, best first, or the exception of the index. *)
Variable index_query : list float -> Z -> result (list IndexResult).

(** The udf [embed], declared on [str]: a text goes to the engine, a value
    of another type is refused. *)
Definition embed (text : pyval) : M (list float) :=
  match text with
  | VStr s => embed_text model s
  | _ => raise TypeError
  end.

(** [processed_data.select(..., embedding=embed(pw.this.text))] on one row. *)
Definition select_embedded (d : Document) : M EmbeddedDocument :=
  v <- embed (text d) ;;
  ret (mkEmbeddedDocument (id d) (document_type d) (text d) (metadata d) v).

Definition process_query (query : string) : M (list float) :=
  embed_text model query.

Definition query_handler (query : string) (top_k : Z) : M (list ResultItem) :=
  query_embedding <- process_query query ;;
  results <- lift (index_query query_embedding top_k) ;;
  let formatted_results :=
    fold_left
      (fun formatted_results result =>
         (formatted_results
            ++ [mkResultItem (r_id result) (r_document_type result) (r_text result)
                  (r_score result) (r_metadata result)])%list)
      results [] in
  ret formatted_results.

End BlockchainRAGPipeline.

(** A source record on its way into the index: normalised, then embedded. *)
Definition ingest (model : SentenceTransformer) (k : kind) (raw : pydict)
  : M EmbeddedDocument :=
  d <- lift (normalize k raw) ;;
  select_embedded model d.

(** The fields of a source record that its normalisation reads. *)
Definition consumed_fields (k : kind) : list string :=
  match k with
  | Block => block_consumed_fields
  | Transaction => ["ID"; "Data"]
  end.

Definition kind_name (k : kind) : string :=
  match k with
  | Block => "block"
  | Transaction => "transaction"
  end.

Definition id_prefix (k : kind) : string :=
  match k with
  | Block => "block_"
  | Transaction => "tx_"
  end.

(** Whether the [try] block of round [n] ends by raising. *)
Definition round_raises (c : BlockPlainConnector) (n : nat) : bool :=
  match fst (stream_attempt c n empty_world) with
  | Raise _ => true
  | Ok _ => false
  end.

(** A connector whose first subscription delivers a block, then an update
    without a type, then a transaction that is never reached. *)
Definition garbled_connector : BlockPlainConnector :=
  mkConnector
    (Ok (VList [VDict [("X", VInt 0); ("Y", VInt 0)];
                VDict [("X", VInt 0); ("Y", VInt 1); ("Data", VNone)];
                VDict [("X", VInt 0); ("Y", VInt 2)]]))
    (Ok (VList [VDict [("ID", VStr "t1")]]))
    (fun _ =>
       mkSubscription
         [VDict [("type", VStr "newBlock"); ("data", VDict [("X", VInt 1); ("Y", VInt 0)])];
          VDict [("data", VDict [("X", VInt 2); ("Y", VInt 0)])];
          VDict [("type", VStr "newTransaction"); ("data", VDict [("ID", VStr "t2")])]]
         None).

(* ================================================================== *)
(** * [api/routes.py]                                                  *)
(* ================================================================== *)

Module Api.

(** What a route can raise: a builtin exception of the kind met so far,
    three more builtins, or FastAPI's [HTTPException].  All of them are
    subclasses of [Exception]. *)
Inductive api_exn : Type :=
| Builtin (e : exn)
| IndexError
| KeyErrorInt (key : Z)
| AttributeError
| HTTPException (status_code : Z) (detail : string).

Inductive outcome (A : Type) : Type :=
| Return (a : A)
| Throw (e : api_exn).
Arguments Return {A} a.
Arguments Throw {A} e.

Inductive http_method : Type :=
| GET
| POST.

Record http_request : Type := mkRequest {
  method : http_method;
  url : string;
  headers : list (string * string);
  json : option pyval
}.

(** An [aiohttp] response: its status, and what [text()] and [json()]
    give when awaited. *)
Record http_response : Type := mkResponse {
  response_status : Z;
  response_text : result string;
  response_json : result pyval
}.

Inductive api_event : Type :=
| Sent (r : http_request)                  (* a request was attempted *)
| Logged (level : string) (msg : string).  (* [logger.<level>(msg)] *)

(** The values of [config.py] the routes read. *)
Record Settings : Type := mkSettings {
  LLM_API_KEY : string;
  LLM_API_URL : string;
  LLM_MODEL : string;
  BLOCKCHAIN_API_URL : string
}.

Record QueryRequest : Type := mkQueryRequest {
  query : string;
  top_k : Z
}.

Record QueryResponse : Type := mkQueryResponse {
  results : pyval;
  llm_response : option pyval
}.

Record BlockchainStats : Type := mkBlockchainStats {
  block_count : pyval;
  tx_count : pyval;
  pending_tx_count : pyval;
  latest_block : pyval;
  latest_timestamp : pyval
}.

(** What the routes lean on: the network ([send], the reply to a request
    or the exception of the attempt), [str(e)] of an exception, and the
    two pydantic constructors, which validate their arguments and return
    the model or raise. *)
Record Services : Type := mkServices {
  send : http_request -> result http_response;
  str_exn : api_exn -> string;
  make_QueryResponse : pyval -> option pyval -> result QueryResponse;
  make_BlockchainStats : pyval -> pyval -> pyval -> pyval -> pyval -> result BlockchainStats
}.

(** A route handler: it runs on the trace of what was sent and logged. *)
Definition IO (A : Type) : Type := list api_event -> outcome A * list api_event.

Definition ret {A : Type} (a : A) : IO A := fun tr => (Return a, tr).

Definition bind {A B : Type} (m : IO A) (k : A -> IO B) : IO B :=
  fun tr =>
    match m tr with
    | (Return a, tr') => k a tr'
    | (Throw e, tr') => (Throw e, tr')
    end.

Definition throw {A : Type} (e : api_exn) : IO A := fun tr => (Throw e, tr).

Definition lift {A : Type} (r : result A) : IO A :=
  fun tr =>
    match r with
    | Ok a => (Return a, tr)
    | Raise e => (Throw (Builtin e), tr)
    end.

Definition lift_outcome {A : Type} (r : outcome A) : IO A := fun tr => (r, tr).

(** [try: body / except Exception as e: handler e] *)
Definition try_except {A : Type} (body : IO A) (handler : api_exn -> IO A) : IO A :=
  fun tr =>
    match body tr with
    | (Return a, tr') => (Return a, tr')
    | (Throw e, tr') => handler e tr'
    end.

Definition log (level msg : string) : IO unit :=
  fun tr => (Return tt, (tr ++ [Logged level msg])%list).

(** [async with session.<method>(...) as response] *)
Definition request (svc : Services) (r : http_request) : IO http_response :=
  fun tr =>
    match send svc r with
    | Ok response => (Return response, (tr ++ [Sent r])%list)
    | Raise e => (Throw (Builtin e), (tr ++ [Sent r])%list)
    end.

Declare Scope api_scope.
Delimit Scope api_scope with api.
Notation "x <- m ;; k" := (bind m (fun x => k))
  (at level 61, m at next level, right associativity) : api_scope.
Notation "m ;; k" := (bind m (fun _ => k))
  (at level 61, right associativity) : api_scope.
#[local] Open Scope api_scope.

(** Truth value of a [str]. *)
Definition truthy (s : string) : bool :=
  match s with
  | EmptyString => false
  | _ => true
  end.

(** [v[i]] for an integer [i]. *)
Definition index (v : pyval) (i : Z) : outcome pyval :=
  let pick (l : list pyval) :=
    let n := Py.len l in
    let j := if (i <? 0)%Z then (i + n)%Z else i in
    if ((j <? 0) || (n <=? j))%Z then Throw IndexError
    else match nth_error l (Z.to_nat j) with
         | Some x => Return x
         | None => Throw IndexError
         end in
  match v with
  | VList l => pick l
  | VStr s => pick (Py.chars s)
  | VDict _ => Throw (KeyErrorInt i)
  | _ => Throw (Builtin TypeError)
  end.

(** [v.get(k, default)]: only a [dict] has the method. *)
Definition get_method (v : pyval) (k : string) (default : pyval) : outcome pyval :=
  match v with
  | VDict d => Return (Py.get d k default)
  | _ => Throw AttributeError
  end.

(** [[item["text"] for item in items]] *)
Fixpoint texts_of (items : list pyval) : result (list pyval) :=
  match items with
  | [] => Ok []
  | item :: rest =>
      match Py.getitem item "text" with
      | Raise e => Raise e
      | Ok t =>
          match texts_of rest with
          | Raise e => Raise e
          | Ok ts => Ok (t :: ts)
          end
      end
  end.

(** [sep.join(parts)]: every part has to be a [str]. *)
Fixpoint join (sep : string) (parts : list pyval) : result string :=
  match parts with
  | [] => Ok ""
  | VStr s :: rest =>
      match rest with
      | [] => Ok s
      | _ =>
          match join sep rest with
          | Ok t => Ok (s ++ sep ++ t)
          | Raise e => Raise e
          end
      end
  | _ => Raise TypeError
  end.

Definition system_prompt : string :=
  "You are an AI assistant that helps users understand blockchain data from BlockPlain, a 2D blockchain. Answer questions based on the provided context.".

Definition get_llm_response (cfg : Settings) (svc : Services) (query context : string)
  : IO pyval :=
  if negb (truthy (LLM_API_KEY cfg)) then ret (VStr "LLM integration not configured")
  else
    try_except
      (let headers :=
         [("Content-Type", "application/json");
          ("Authorization", "Bearer " ++ LLM_API_KEY cfg)] in
       let data :=
         VDict
           [("model", VStr (LLM_MODEL cfg));
            ("messages",
             VList
               [VDict [("role", VStr "system"); ("content", VStr system_prompt)];
                VDict [("role", VStr "user");
                       ("content",
                        VStr ("Context: " ++ context ++ Py.NL ++ Py.NL
                                ++ "Question: " ++ query))]]);
            ("temperature", VFloat "0.3");
            ("max_tokens", VInt 500)] in
       response <- request svc (mkRequest POST (LLM_API_URL cfg) headers (Some data)) ;;
       if negb (response_status response =? 200)%Z then
         text <- lift (response_text response) ;;
         log "warning" ("LLM API error: " ++ text) ;;
         ret (VStr "Unable to generate AI response")
       else
         result <- lift (response_json response) ;;
         choices <- lift (Py.getitem result "choices") ;;
         choice <- lift_outcome (index choices 0) ;;
         message <- lift (Py.getitem choice "message") ;;
         content <- lift (Py.getitem message "content") ;;
         ret content)
      (fun e =>
         log "error" ("Error getting LLM response: " ++ str_exn svc e) ;;
         ret (VStr ("Error generating AI response: " ++ str_exn svc e))).

Definition pathway_url : string := "http://localhost:8000/query".

Definition query_blockchain (cfg : Settings) (svc : Services) (req : QueryRequest)
  : IO QueryResponse :=
  try_except
    (response <-
       request svc
         (mkRequest POST pathway_url []
            (Some (VDict [("query", VStr (query req)); ("top_k", VInt (top_k req))]))) ;;
     (if negb (response_status response =? 200)%Z then
        text <- lift (response_text response) ;;
        log "error" ("Pathway API error: " ++ text) ;;
        throw (HTTPException 500 "Error querying blockchain data")
      else ret tt) ;;
     results <- lift (response_json response) ;;
     llm_response <-
       (if truthy (LLM_API_KEY cfg) then
          items <- lift (Py.iter results) ;;
          texts <- lift (texts_of items) ;;
          context <- lift (join (Py.NL ++ Py.NL) texts) ;;
          answer <- get_llm_response cfg svc (query req) context ;;
          ret (Some answer)
        else ret None) ;;
     lift (make_QueryResponse svc results llm_response))
    (fun e =>
       log "error" ("Error processing query: " ++ str_exn svc e) ;;
       throw (HTTPException 500 (str_exn svc e))).

Definition get_blockchain_stats (cfg : Settings) (svc : Services) : IO BlockchainStats :=
  try_except
    (response <-
       request svc (mkRequest GET (BLOCKCHAIN_API_URL cfg ++ "/state") [] None) ;;
     (if negb (response_status response =? 200)%Z then
        throw (HTTPException 500 "Error fetching blockchain state")
      else ret tt) ;;
     state <- lift (response_json response) ;;
     block_count <- lift_outcome (get_method state "blockCount" (VInt 0)) ;;
     tx_count <- lift_outcome (get_method state "txCount" (VInt 0)) ;;
     pending_tx_count <- lift_outcome (get_method state "pendingTxCount" (VInt 0)) ;;
     latest_block <-
       lift_outcome
         (get_method state "latestBlock" (VDict [("x", VInt 0); ("y", VInt 0)])) ;;
     latest_timestamp <- lift_outcome (get_method state "latestTimestamp" (VStr "")) ;;
     lift (make_BlockchainStats svc block_count tx_count pending_tx_count
             latest_block latest_timestamp))
    (fun e =>
       log "error" ("Error getting blockchain stats: " ++ str_exn svc e) ;;
       throw (HTTPException 500 (str_exn svc e))).

(** The requests in a trace, oldest first. *)
Definition requests (tr : list api_event) : list http_request :=
  flat_map (fun ev => match ev with Sent r => [r] | Logged _ _ => [] end) tr.

(** Services for the examples: the index service answers two hits, every
    other address is unreachable; the constructors accept anything. *)
Definition sample_services : Services :=
  mkServices
    (fun r =>
       if String.eqb (url r) pathway_url
       then Ok (mkResponse 200 (Ok "")
                  (Ok (VList [VDict [("id", VStr "block_0_0"); ("text", VStr "Block A")];
                              VDict [("id", VStr "tx_t1"); ("text", VStr "Tx B")]])))
       else Raise (OtherException "unreachable"))
    (fun e =>
       match e with
       | Builtin (OtherException msg) => msg
       | HTTPException status detail => Py.str_int status ++ ": " ++ detail
       | _ => "error"
       end)
    (fun rs llm => Ok (mkQueryResponse rs llm))
    (fun a b c d e => Ok (mkBlockchainStats a b c d e)).

End Api.

(* ================================================================== *)
(** * Evaluations on concrete inputs                                   *)
(* ================================================================== *)

Example str_int_examples :
  Py.str_int 0 = "0" /\ Py.str_int 42 = "42" /\ Py.str_int (-7) = "-7".
Proof. repeat split. Qed.

Example repr_examples :
  Py.repr (VList [VStr "a"; VInt 1; VNone]) = "['a', 1, None]"
  /\ Py.repr (VDict [("ID", VStr "t1"); ("ok", VBool true)]) = "{'ID': 't1', 'ok': True}"
  /\ Py.repr (VStr "it's") = String Py.dquote ("it's" ++ String Py.dquote "").
Proof. repeat split. Qed.

Example normalize_block_example :
  normalize Block [("X", VInt 1); ("Y", VInt 2); ("Hash", VStr "ab");
                   ("Data", VList [VStr "pay"; VDict [("ID", VStr "t1")]])]
  = Ok (mkDocument
          (VStr "block_1_2") (VStr "block")
          (VStr ("Block at [1, 2]" ++ Py.NL ++ "Hash: ab" ++ Py.NL
                   ++ "Previous Hashes: X=?, Y=?" ++ Py.NL ++ "Context: ?" ++ Py.NL
                   ++ "Timestamp: ?" ++ Py.NL ++ "Transactions:" ++ Py.NL
                   ++ "  1. pay" ++ Py.NL ++ "  2. {'ID': 't1'}" ++ Py.NL))
          [("X", VInt 1); ("Y", VInt 2); ("Hash", VStr "ab");
           ("Data", VList [VStr "pay"; VDict [("ID", VStr "t1")]]);
           ("_document_type", VStr "block");
           ("_text", VStr ("Block at [1, 2]" ++ Py.NL ++ "Hash: ab" ++ Py.NL
                   ++ "Previous Hashes: X=?, Y=?" ++ Py.NL ++ "Context: ?" ++ Py.NL
                   ++ "Timestamp: ?" ++ Py.NL ++ "Transactions:" ++ Py.NL
                   ++ "  1. pay" ++ Py.NL ++ "  2. {'ID': 't1'}" ++ Py.NL));
           ("_id", VStr "block_1_2")]).
Proof. reflexivity. Qed.

Example empty_block_example :
  normalize Block []
  = Ok (mkDocument
          (VStr "block_0_0") (VStr "block")
          (VStr ("Block at [?, ?]" ++ Py.NL ++ "Hash: ?" ++ Py.NL
                   ++ "Previous Hashes: X=?, Y=?" ++ Py.NL ++ "Context: ?" ++ Py.NL
                   ++ "Timestamp: ?" ++ Py.NL ++ "Transactions:" ++ Py.NL))
          [("_document_type", VStr "block");
           ("_text", VStr ("Block at [?, ?]" ++ Py.NL ++ "Hash: ?" ++ Py.NL
                   ++ "Previous Hashes: X=?, Y=?" ++ Py.NL ++ "Context: ?" ++ Py.NL
                   ++ "Timestamp: ?" ++ Py.NL ++ "Transactions:" ++ Py.NL));
           ("_id", VStr "block_0_0")]).
Proof. reflexivity. Qed.

Example null_data_example :
  _process_block (VDict [("X", VInt 1); ("Data", VNone)]) empty_world
  = (Raise TypeError, empty_world).
Proof. reflexivity. Qed.

Example text_data_example :
  exists d,
    normalize Block [("Data", VStr "ab")] = Ok d
    /\ text d
       = VStr ("Block at [?, ?]" ++ Py.NL ++ "Hash: ?" ++ Py.NL
                 ++ "Previous Hashes: X=?, Y=?" ++ Py.NL ++ "Context: ?" ++ Py.NL
                 ++ "Timestamp: ?" ++ Py.NL ++ "Transactions:" ++ Py.NL
                 ++ "  1. a" ++ Py.NL ++ "  2. b" ++ Py.NL).
Proof. eexists. split; reflexivity. Qed.

Example sample_run_example :
  fst (start_then_stream sample_connector (fun n => Nat.leb 1 n) 5 empty_world)
  = Ok Returned
  /\ map (Py.dict_get "_id")
       (queue (snd (start_then_stream sample_connector (fun n => Nat.leb 1 n) 5
                      empty_world)))
     = [Some (VStr "block_0_0"); Some (VStr "block_0_1"); Some (VStr "tx_t1");
        Some (VStr "block_1_0")]
  /\ control
       (trace (snd (start_then_stream sample_connector (fun n => Nat.leb 1 n) 5
                      empty_world)))
     = [EvSubscribe 0; EvSleep 5].
Proof. vm_compute. repeat split. Qed.

Example normalize_transaction_example :
  normalize Transaction [("ID", VStr "t9"); ("Data", VInt 5)]
  = Ok (mkDocument
          (VStr "tx_t9") (VStr "transaction")
          (VStr ("Transaction t9" ++ Py.NL ++ "Data: 5" ++ Py.NL))
          [("ID", VStr "t9"); ("Data", VInt 5);
           ("_document_type", VStr "transaction");
           ("_text", VStr ("Transaction t9" ++ Py.NL ++ "Data: 5" ++ Py.NL));
           ("_id", VStr "tx_t9")]).
Proof. reflexivity. Qed.

(* ================================================================== *)
(** * Strings and decimal numerals                                     *)
(* ================================================================== *)

Lemma append_assoc (s1 s2 s3 : string) : (s1 ++ s2) ++ s3 = s1 ++ s2 ++ s3.
Proof.
  induction s1 as [| c s1 IH]; cbn [append].
  - reflexivity.
  - now rewrite IH.
Qed.

Lemma append_nil_r (s : string) : s ++ "" = s.
Proof.
  induction s as [| c s IH]; cbn [append]; [reflexivity | now rewrite IH].
Qed.

Lemma append_inv_head (p s t : string) : p ++ s = p ++ t -> s = t.
Proof.
  induction p as [| c p IH]; cbn [append]; intros H.
  - exact H.
  - injection H as H. now apply IH.
Qed.

(** Two texts cut at their first separator agree piece by piece. *)
Lemma split_at_separator (c : ascii) (s1 s2 t1 t2 : string) :
  Py.has_char c s1 = false ->
  Py.has_char c s2 = false ->
  s1 ++ String c t1 = s2 ++ String c t2 ->
  s1 = s2 /\ t1 = t2.
Proof.
  revert s2.
  induction s1 as [| a s1 IH]; intros [| b s2] H1 H2 H; cbn [append] in H.
  - injection H as H. now split.
  - injection H as Hc _. subst b. cbn [Py.has_char] in H2.
    rewrite Ascii.eqb_refl in H2. discriminate.
  - injection H as Hc _. subst a. cbn [Py.has_char] in H1.
    rewrite Ascii.eqb_refl in H1. discriminate.
  - injection H as Hc H. subst b.
    cbn [Py.has_char] in H1, H2.
    apply orb_false_iff in H1 as [_ H1].
    apply orb_false_iff in H2 as [_ H2].
    destruct (IH s2 H1 H2 H) as [-> ->]. now split.
Qed.

Lemma digits_have_no_underscore (d : Decimal.uint) :
  Py.has_char "_" (NilEmpty.string_of_uint d) = false.
Proof.
  induction d; cbn [NilEmpty.string_of_uint Py.has_char]; try reflexivity;
    rewrite IHd; reflexivity.
Qed.

Lemma str_int_no_underscore (z : Z) : Py.has_char "_" (Py.str_int z) = false.
Proof.
  unfold Py.str_int, NilZero.string_of_int, NilZero.string_of_uint.
  destruct (Z.to_int z) as [d | d]; destruct d; cbn [Py.has_char];
    try reflexivity;
    match goal with
    | |- context [NilEmpty.string_of_uint ?u] =>
        pose proof (digits_have_no_underscore u) as H;
        cbn [NilEmpty.string_of_uint Py.has_char] in H |- *;
        cbn [Ascii.eqb Bool.eqb orb] in H |- *; exact H
    end.
Qed.

Lemma to_int_not_nil (z : Z) :
  Z.to_int z <> Decimal.Pos Decimal.Nil /\ Z.to_int z <> Decimal.Neg Decimal.Nil.
Proof.
  destruct z as [| p | p]; cbn [Z.to_int]; split; try discriminate;
    intros [= H]; exact (DecimalPos.Unsigned.to_uint_nonnil p H).
Qed.

Lemma str_int_inj (z1 z2 : Z) : Py.str_int z1 = Py.str_int z2 -> z1 = z2.
Proof.
  unfold Py.str_int. intros H.
  apply DecimalZ.to_int_inj.
  destruct (to_int_not_nil z1) as [P1 N1], (to_int_not_nil z2) as [P2 N2].
  pose proof (NilZero.isi _ P1 N1) as E1.
  pose proof (NilZero.isi _ P2 N2) as E2.
  rewrite H in E1. rewrite E1 in E2. now injection E2.
Qed.

(* ================================================================== *)
(** * Dictionaries                                                     *)
(* ================================================================== *)

Lemma dict_get_set_same (k : string) (v : pyval) (d : pydict) :
  Py.dict_get k (Py.dict_set k v d) = Some v.
Proof.
  induction d as [| [k' v'] d IH]; cbn [Py.dict_set Py.dict_get].
  - now rewrite String.eqb_refl.
  - destruct (String.eqb k k') eqn:E; cbn [Py.dict_get]; rewrite E; [reflexivity | exact IH].
Qed.

Lemma dict_get_set_other (k k' : string) (v : pyval) (d : pydict) :
  String.eqb k k' = false ->
  Py.dict_get k (Py.dict_set k' v d) = Py.dict_get k d.
Proof.
  intros Hk.
  induction d as [| [k0 v0] d IH]; cbn [Py.dict_set Py.dict_get].
  - now rewrite Hk.
  - destruct (String.eqb k' k0) eqn:E; cbn [Py.dict_get].
    + apply String.eqb_eq in E. subst k0. now rewrite Hk.
    + destruct (String.eqb k k0); [reflexivity | exact IH].
Qed.

(** Writing the value a key already holds changes nothing. *)
Lemma dict_set_same_value (k : string) (v : pyval) (d : pydict) :
  Py.dict_get k d = Some v -> Py.dict_set k v d = d.
Proof.
  induction d as [| [k' v'] d IH]; cbn [Py.dict_set Py.dict_get]; intros H.
  - discriminate.
  - destruct (String.eqb k k') eqn:E.
    + now injection H as ->.
    + now rewrite IH.
Qed.

Lemma get_set_other (k k' : string) (v default : pyval) (d : pydict) :
  String.eqb k k' = false ->
  Py.get (Py.dict_set k' v d) k default = Py.get d k default.
Proof.
  intros Hk. unfold Py.get. now rewrite dict_get_set_other.
Qed.

Lemma derived_key_false (k k' : string) :
  derived_key k' = true -> derived_key k = false -> String.eqb k k' = false.
Proof.
  intros H' H.
  destruct (String.eqb k k') eqn:E; [| reflexivity].
  apply String.eqb_eq in E. subst k'. congruence.
Qed.

(** A write to a derived key leaves the source fields as they were, in
    their order. *)
Lemma source_fields_set (k : string) (v : pyval) (d : pydict) :
  derived_key k = true ->
  source_fields (Py.dict_set k v d) = source_fields d.
Proof.
  intros Hk. unfold source_fields.
  induction d as [| [k' v'] d IH]; cbn [Py.dict_set filter fst].
  - now rewrite Hk.
  - destruct (String.eqb k k') eqn:E; cbn [filter fst].
    + apply String.eqb_eq in E. subst k'. now rewrite Hk.
    + now rewrite IH.
Qed.

Lemma str_get_placeholder (raw : pydict) (field : string) :
  Py.str (Py.get raw field (VStr "?")) = shown raw field.
Proof.
  unfold Py.get, shown. now destruct (Py.dict_get field raw).
Qed.

(* ================================================================== *)
(** * What the two normalising coroutines compute                      *)
(* ================================================================== *)

Lemma fold_listing (data : list pyval) (start : Z) (acc : string) :
  fold_left
    (fun text i_tx =>
       text ++ "  " ++ Py.str_int (fst i_tx + 1) ++ ". " ++ Py.str (snd i_tx) ++ Py.NL)
    (Py.enumerate_from start data) acc
  = acc ++ listing (start + 1) data.
Proof.
  revert start acc.
  induction data as [| tx data IH]; intros start acc;
    cbn [Py.enumerate_from fold_left listing fst snd].
  - now rewrite append_nil_r.
  - rewrite IH. rewrite !append_assoc. reflexivity.
Qed.

Lemma staged_block (raw : pydict) :
  staged Block (VDict raw)
  = match Py.iter (Py.get raw "Data" (VList [])) with
    | Ok data => Ok (stamped "block" (block_text raw data) (block_id raw) raw)
    | Raise e => Raise e
    end.
Proof.
  unfold staged, process, _process_block, bind, lift.
  cbn [Py.setitem].
  rewrite !get_set_other by reflexivity.
  destruct (Py.iter (Py.get raw "Data" (VList []))) as [data | e]; [| reflexivity].
  unfold queue_put, empty_world. cbn [queue app].
  rewrite !str_get_placeholder.
  unfold Py.enumerate. rewrite fold_listing.
  unfold stamped, block_id, block_text.
  rewrite !append_assoc, !get_set_other by reflexivity.
  reflexivity.
Qed.

Lemma staged_transaction (raw : pydict) :
  staged Transaction (VDict raw)
  = Ok (stamped "transaction" (transaction_text raw) (transaction_id raw) raw).
Proof.
  unfold staged, process, _process_transaction, bind, lift.
  cbn [Py.setitem].
  unfold queue_put, empty_world. cbn [queue app].
  rewrite !get_set_other by reflexivity.
  rewrite !str_get_placeholder.
  unfold stamped, transaction_id, transaction_text.
  rewrite !append_assoc. reflexivity.
Qed.

Lemma staged_not_a_dict (k : kind) (raw : pyval) :
  (forall d, raw <> VDict d) -> staged k raw = Raise TypeError.
Proof.
  intros H. destruct raw; try (now destruct k); now elim (H d).
Qed.

(** Handling a record does not look at the world: it raises, or it puts
    the staged item. *)
Lemma process_staged (k : kind) (raw : pyval) (w : world) :
  process k raw w
  = match staged k raw with
    | Ok item => queue_put item w
    | Raise e => (Raise e, w)
    end.
Proof.
  destruct raw as [| b | z | r | s | l | d];
    try (destruct k; reflexivity).
  destruct k.
  - rewrite staged_block.
    unfold process, _process_block, bind, lift. cbn [Py.setitem].
    rewrite !get_set_other by reflexivity.
    destruct (Py.iter (Py.get d "Data" (VList []))) as [data | e]; [| reflexivity].
    rewrite !str_get_placeholder.
    unfold Py.enumerate. rewrite fold_listing.
    unfold stamped, block_id, block_text.
    rewrite !append_assoc, !get_set_other by reflexivity.
    reflexivity.
  - rewrite staged_transaction.
    unfold process, _process_transaction, bind, lift. cbn [Py.setitem].
    rewrite !get_set_other by reflexivity.
    rewrite !str_get_placeholder.
    unfold stamped, transaction_id, transaction_text.
    rewrite !append_assoc. reflexivity.
Qed.

Lemma select_stamped (type_name txt ident : string) (raw : pydict) :
  select_processed (stamped type_name txt ident raw)
  = Ok (mkDocument (VStr ident) (VStr type_name) (VStr txt)
          (stamped type_name txt ident raw)).
Proof.
  unfold select_processed, Py.getitem, stamped.
  rewrite dict_get_set_same.
  rewrite (dict_get_set_other "_document_type" "_id") by reflexivity.
  rewrite (dict_get_set_other "_document_type" "_text") by reflexivity.
  rewrite dict_get_set_same.
  rewrite (dict_get_set_other "_text" "_id") by reflexivity.
  rewrite dict_get_set_same.
  reflexivity.
Qed.

Lemma normalize_block (raw : pydict) :
  normalize Block raw
  = match Py.iter (Py.get raw "Data" (VList [])) with
    | Ok data =>
        Ok (mkDocument (VStr (block_id raw)) (VStr "block")
              (VStr (block_text raw data))
              (stamped "block" (block_text raw data) (block_id raw) raw))
    | Raise e => Raise e
    end.
Proof.
  unfold normalize. rewrite staged_block.
  destruct (Py.iter (Py.get raw "Data" (VList []))); [apply select_stamped | reflexivity].
Qed.

Lemma normalize_transaction (raw : pydict) :
  normalize Transaction raw
  = Ok (mkDocument (VStr (transaction_id raw)) (VStr "transaction")
          (VStr (transaction_text raw))
          (stamped "transaction" (transaction_text raw) (transaction_id raw) raw)).
Proof.
  unfold normalize. rewrite staged_transaction. apply select_stamped.
Qed.


Lemma shown_stamped (type_name txt ident : string) (raw : pydict) (field : string) :
  derived_key field = false ->
  shown (stamped type_name txt ident raw) field = shown raw field.
Proof.
  intros H. unfold shown, stamped.
  rewrite !dict_get_set_other by (apply derived_key_false; [reflexivity | exact H]).
  reflexivity.
Qed.

Lemma get_stamped (type_name txt ident : string) (raw : pydict) (field : string)
  (default : pyval) :
  derived_key field = false ->
  Py.get (stamped type_name txt ident raw) field default = Py.get raw field default.
Proof.
  intros H. unfold stamped.
  rewrite !get_set_other by (apply derived_key_false; [reflexivity | exact H]).
  reflexivity.
Qed.

(** Stamping a record that carries the same three values is a no-op. *)
Lemma stamped_idem (type_name txt ident : string) (raw : pydict) :
  stamped type_name txt ident (stamped type_name txt ident raw)
  = stamped type_name txt ident raw.
Proof.
  unfold stamped at 1.
  assert (E1 : Py.dict_set "_document_type" (VStr type_name)
                 (stamped type_name txt ident raw)
               = stamped type_name txt ident raw).
  { apply dict_set_same_value. unfold stamped.
    rewrite (dict_get_set_other "_document_type" "_id") by reflexivity.
    rewrite (dict_get_set_other "_document_type" "_text") by reflexivity.
    apply dict_get_set_same. }
  rewrite E1.
  assert (E2 : Py.dict_set "_text" (VStr txt) (stamped type_name txt ident raw)
               = stamped type_name txt ident raw).
  { apply dict_set_same_value. unfold stamped.
    rewrite (dict_get_set_other "_text" "_id") by reflexivity.
    apply dict_get_set_same. }
  rewrite E2.
  apply dict_set_same_value. unfold stamped. apply dict_get_set_same.
Qed.

Lemma source_fields_stamped (type_name txt ident : string) (raw : pydict) :
  source_fields (stamped type_name txt ident raw) = source_fields raw.
Proof.
  unfold stamped. now rewrite !source_fields_set by reflexivity.
Qed.

(** The queued item is the very record the document keeps as metadata. *)
Lemma normalize_metadata (k : kind) (raw : pydict) (d : Document) :
  normalize k raw = Ok d -> staged k (VDict raw) = Ok (metadata d).
Proof.
  destruct k.
  - rewrite normalize_block, staged_block.
    destruct (Py.iter (Py.get raw "Data" (VList []))); [| discriminate].
    now intros [= <-].
  - rewrite normalize_transaction, staged_transaction. now intros [= <-].
Qed.

Lemma process_normalized (k : kind) (raw : pydict) (d : Document) (w : world) :
  normalize k raw = Ok d -> process k (VDict raw) w = queue_put (metadata d) w.
Proof.
  intros H. rewrite process_staged. now rewrite (normalize_metadata _ _ _ H).
Qed.

Lemma normalize_again (k : kind) (raw : pydict) (d : Document) :
  normalize k raw = Ok d -> normalize k (metadata d) = Ok d.
Proof.
  destruct k.
  - rewrite normalize_block.
    destruct (Py.iter (Py.get raw "Data" (VList []))) as [data | e] eqn:E; [| discriminate].
    intros [= <-]. cbn [metadata].
    rewrite normalize_block.
    rewrite get_stamped by reflexivity. rewrite E.
    assert (Ei : block_id (stamped "block" (block_text raw data) (block_id raw) raw)
                 = block_id raw).
    { unfold block_id. now rewrite !get_stamped by reflexivity. }
    assert (Et : block_text (stamped "block" (block_text raw data) (block_id raw) raw) data
                 = block_text raw data).
    { unfold block_text. now rewrite !shown_stamped by reflexivity. }
    rewrite Ei, Et, stamped_idem. reflexivity.
  - rewrite normalize_transaction. intros [= <-]. cbn [metadata].
    rewrite normalize_transaction.
    assert (Ei : transaction_id
                   (stamped "transaction" (transaction_text raw) (transaction_id raw) raw)
                 = transaction_id raw).
    { unfold transaction_id. now rewrite !get_stamped by reflexivity. }
    assert (Et : transaction_text
                   (stamped "transaction" (transaction_text raw) (transaction_id raw) raw)
                 = transaction_text raw).
    { unfold transaction_text. now rewrite !shown_stamped by reflexivity. }
    rewrite Ei, Et, stamped_idem. reflexivity.
Qed.

Lemma normalize_id (k : kind) (raw : pydict) (d : Document) :
  normalize k raw = Ok d ->
  id d = VStr (match k with Block => block_id raw | Transaction => transaction_id raw end).
Proof.
  destruct k.
  - rewrite normalize_block.
    destruct (Py.iter (Py.get raw "Data" (VList []))); [| discriminate].
    now intros [= <-].
  - rewrite normalize_transaction. now intros [= <-].
Qed.

(* ================================================================== *)
(** * Document ids                                                     *)
(* ================================================================== *)

Lemma block_id_of_integers (raw : pydict) (x y : Z) :
  Py.dict_get "X" raw = Some (VInt x) ->
  Py.dict_get "Y" raw = Some (VInt y) ->
  block_id raw = "block_" ++ Py.str_int x ++ String "_" (Py.str_int y).
Proof.
  intros HX HY. unfold block_id, Py.get. now rewrite HX, HY.
Qed.

Lemma block_id_integers_inj (x1 y1 x2 y2 : Z) :
  "block_" ++ Py.str_int x1 ++ String "_" (Py.str_int y1)
  = "block_" ++ Py.str_int x2 ++ String "_" (Py.str_int y2) ->
  x1 = x2 /\ y1 = y2.
Proof.
  intros H. apply append_inv_head in H.
  apply split_at_separator in H; try apply str_int_no_underscore.
  destruct H as [Hx Hy]. split; now apply str_int_inj.
Qed.

(** C1, as stated, fails: the block record that lacks [X] and [Y] and the
    block record at position (0, 0) have different source identities and
    the same id, ["block_0_0"]. *)
Lemma C1_missing_fields_collide :
  ~ (forall (r1 r2 : pydict) (d1 d2 : Document),
       normalize Block r1 = Ok d1 ->
       normalize Block r2 = Ok d2 ->
       source_identity Block r1 <> source_identity Block r2 ->
       id d1 <> id d2).
Proof.
  intros H.
  refine (H [] [("X", VInt 0); ("Y", VInt 0)] _ _ eq_refl eq_refl _ _).
  - discriminate.
  - reflexivity.
Qed.

(** C1 (amended).  The id of a block document is ["block_<X>_<Y>"] with
    a missing coordinate printed as [0]; the id of a transaction document
    is ["tx_<ID>"] with a missing identifier printed as the empty text.
    Two blocks whose coordinates are present integers and differ get
    different ids; so do two transactions whose identifiers are present
    texts and differ; a block and a transaction never share an id. *)
Theorem C1_document_ids :
  (forall raw d,
      normalize Block raw = Ok d ->
      id d = VStr ("block_" ++ Py.str (Py.get raw "X" (VInt 0))
                            ++ "_" ++ Py.str (Py.get raw "Y" (VInt 0))))
  /\ (forall raw,
         exists d,
           normalize Transaction raw = Ok d
           /\ id d = VStr ("tx_" ++ Py.str (Py.get raw "ID" (VStr ""))))
  /\ (forall r1 r2 d1 d2 x1 y1 x2 y2,
         normalize Block r1 = Ok d1 ->
         normalize Block r2 = Ok d2 ->
         Py.dict_get "X" r1 = Some (VInt x1) -> Py.dict_get "Y" r1 = Some (VInt y1) ->
         Py.dict_get "X" r2 = Some (VInt x2) -> Py.dict_get "Y" r2 = Some (VInt y2) ->
         source_identity Block r1 <> source_identity Block r2 ->
         id d1 <> id d2)
  /\ (forall r1 r2 d1 d2 i1 i2,
         normalize Transaction r1 = Ok d1 ->
         normalize Transaction r2 = Ok d2 ->
         Py.dict_get "ID" r1 = Some (VStr i1) ->
         Py.dict_get "ID" r2 = Some (VStr i2) ->
         source_identity Transaction r1 <> source_identity Transaction r2 ->
         id d1 <> id d2)
  /\ (forall r1 r2 d1 d2,
         normalize Block r1 = Ok d1 ->
         normalize Transaction r2 = Ok d2 ->
         id d1 <> id d2).
Proof.
  repeat split.
  - intros raw d H. exact (normalize_id Block raw d H).
  - intros raw. eexists. split; [apply normalize_transaction | reflexivity].
  - intros r1 r2 d1 d2 x1 y1 x2 y2 H1 H2 HX1 HY1 HX2 HY2 Hne Heq.
    apply Hne. unfold source_identity. rewrite HX1, HY1, HX2, HY2.
    rewrite (normalize_id _ _ _ H1), (normalize_id _ _ _ H2) in Heq.
    rewrite (block_id_of_integers _ _ _ HX1 HY1) in Heq.
    rewrite (block_id_of_integers _ _ _ HX2 HY2) in Heq.
    injection Heq as Heq.
    assert (E : x1 = x2 /\ y1 = y2).
    { apply block_id_integers_inj. cbn [append]. now rewrite Heq. }
    destruct E as [-> ->]. reflexivity.
  - intros r1 r2 d1 d2 i1 i2 H1 H2 HI1 HI2 Hne Heq.
    apply Hne. unfold source_identity. rewrite HI1, HI2.
    rewrite (normalize_id _ _ _ H1), (normalize_id _ _ _ H2) in Heq.
    unfold transaction_id, Py.get in Heq. rewrite HI1, HI2 in Heq.
    cbn [Py.str append] in Heq. now injection Heq as ->.
  - intros r1 r2 d1 d2 H1 H2 Heq.
    rewrite (normalize_id _ _ _ H1), (normalize_id _ _ _ H2) in Heq.
    unfold block_id, transaction_id in Heq. cbn [append] in Heq. discriminate.
Qed.

Lemma C1_document_ids_witness :
  exists d1 d2 : Document,
    normalize Block [("X", VInt 3); ("Y", VInt 4)] = Ok d1
    /\ normalize Block [("X", VInt 3); ("Y", VInt 5)] = Ok d2
    /\ id d1 = VStr "block_3_4"
    /\ id d1 <> id d2.
Proof.
  eexists. eexists.
  split; [reflexivity |]. split; [reflexivity |]. split.
  - exact (proj1 C1_document_ids [("X", VInt 3); ("Y", VInt 4)] _ eq_refl).
  - refine (proj1 (proj2 (proj2 C1_document_ids))
              [("X", VInt 3); ("Y", VInt 4)] [("X", VInt 3); ("Y", VInt 5)]
              _ _ 3%Z 4%Z 3%Z 5%Z eq_refl eq_refl eq_refl eq_refl eq_refl eq_refl _).
    discriminate.
Defined.

(* ================================================================== *)
(** * Stability, totality and the stored metadata                      *)
(* ================================================================== *)

(** C2.  Normalisation is stable under repetition: the record a first
    pass has processed (it is the document's metadata, the pass writes
    into the record itself) normalises to the very same document, so to
    the same id and the same text; a second copy of the same source record
    does too; and either way the two passes queue the same item twice. *)
Theorem C2_normalization_stable (k : kind) (raw : pydict) (d : Document) :
  normalize k raw = Ok d ->
  normalize k (metadata d) = Ok d
  /\ (forall d', normalize k raw = Ok d' -> id d' = id d /\ text d' = text d)
  /\ (forall w,
        (process k (VDict raw) ;; process k (VDict (metadata d))) w
        = (Ok tt, mkWorld (queue w ++ [metadata d; metadata d]) (added w)
                    (trace w ++ [EvPut (metadata d); EvPut (metadata d)])))
  /\ (forall w,
        (process k (VDict raw) ;; process k (VDict raw)) w
        = (Ok tt, mkWorld (queue w ++ [metadata d; metadata d]) (added w)
                    (trace w ++ [EvPut (metadata d); EvPut (metadata d)]))).
Proof.
  intros H. pose proof (normalize_again k raw d H) as H'.
  split; [exact H' |]. split.
  - intros d' Hd'. rewrite H in Hd'. now injection Hd' as <-.
  - split; intros w; unfold bind;
      rewrite (process_normalized k raw d w H); unfold queue_put at 1;
      [rewrite (process_normalized k (metadata d) d _ H')
      | rewrite (process_normalized k raw d _ H)];
      unfold queue_put; cbn [queue added trace];
      now rewrite <- !app_assoc.
Qed.

Lemma C2_normalization_stable_witness :
  normalize Block
    (stamped "block" (block_text [("X", VInt 1)] []) "block_1_0" [("X", VInt 1)])
  = Ok (mkDocument (VStr "block_1_0") (VStr "block")
          (VStr (block_text [("X", VInt 1)] []))
          (stamped "block" (block_text [("X", VInt 1)] []) "block_1_0" [("X", VInt 1)])).
Proof.
  exact (proj1 (C2_normalization_stable Block [("X", VInt 1)]
                  (mkDocument (VStr "block_1_0") (VStr "block")
                     (VStr (block_text [("X", VInt 1)] []))
                     (stamped "block" (block_text [("X", VInt 1)] []) "block_1_0"
                        [("X", VInt 1)]))
                  eq_refl)).
Defined.

(** C3, as stated, fails twice.  A block record whose [Data] is [None]
    (JSON [null]) makes [_process_block] raise [TypeError].  And the block
    record with no field at all lacks eight consumed fields, yet its text
    holds seven placeholders: a missing [Data] prints as an empty listing,
    not as a token. *)
Lemma C3_block_not_total :
  normalize Block [("Data", VNone)] = Raise TypeError
  /\ ~ (forall raw : pydict,
          exists d t,
            normalize Block raw = Ok d
            /\ text d = VStr t
            /\ List.length (missing raw block_consumed_fields) <= count_char "?" t).
Proof.
  split; [reflexivity |].
  intros H. destruct (H []) as (d & t & Hn & Ht & Hc).
  vm_compute in Hn. injection Hn as <-.
  cbn [text] in Ht. injection Ht as <-.
  vm_compute in Hc. lia.
Qed.

(** C3 (amended).  Normalising a transaction record never raises, and
    neither does normalising a block record whose [Data] is absent or can
    be iterated.  In the text, each of [X], [Y], [Hash], [PrevHashX],
    [PrevHashY], [Context], [Timestamp] of a block, and [ID] and [Data] of
    a transaction, shows as the placeholder [?] when the record lacks it;
    a block that lacks [Data] gets an empty listing. *)
Theorem C3_normalization_total :
  (forall raw w,
      exists item,
        _process_transaction (VDict raw) w = queue_put item w
        /\ normalize Transaction raw
           = Ok (mkDocument (VStr (transaction_id raw)) (VStr "transaction")
                   (VStr ("Transaction " ++ shown raw "ID" ++ Py.NL
                            ++ "Data: " ++ shown raw "Data" ++ Py.NL))
                   item))
  /\ (forall raw data w,
         Py.iter (Py.get raw "Data" (VList [])) = Ok data ->
         exists item,
           _process_block (VDict raw) w = queue_put item w
           /\ normalize Block raw
              = Ok (mkDocument (VStr (block_id raw)) (VStr "block")
                      (VStr (block_text raw data)) item))
  /\ (forall raw, Py.dict_get "Data" raw = None ->
                  Py.iter (Py.get raw "Data" (VList [])) = Ok [])
  /\ (forall raw field, Py.dict_get field raw = None -> shown raw field = "?").
Proof.
  repeat split.
  - intros raw w. eexists. split.
    + apply (process_normalized Transaction raw _ w (normalize_transaction raw)).
    + apply normalize_transaction.
  - intros raw data w H.
    assert (N : normalize Block raw
                = Ok (mkDocument (VStr (block_id raw)) (VStr "block")
                        (VStr (block_text raw data))
                        (stamped "block" (block_text raw data) (block_id raw) raw))).
    { rewrite normalize_block. now rewrite H. }
    eexists. split.
    + apply (process_normalized Block raw _ w N).
    + exact N.
  - intros raw H. unfold Py.get. now rewrite H.
  - intros raw field H. unfold shown. now rewrite H.
Qed.

Lemma C3_normalization_total_witness :
  exists item,
    _process_block (VDict [("Hash", VStr "h")]) empty_world = queue_put item empty_world
    /\ normalize Block [("Hash", VStr "h")]
       = Ok (mkDocument (VStr "block_0_0") (VStr "block")
               (VStr ("Block at [?, ?]" ++ Py.NL ++ "Hash: h" ++ Py.NL
                        ++ "Previous Hashes: X=?, Y=?" ++ Py.NL ++ "Context: ?" ++ Py.NL
                        ++ "Timestamp: ?" ++ Py.NL ++ "Transactions:" ++ Py.NL))
               item).
Proof.
  exact (proj1 (proj2 C3_normalization_total) [("Hash", VStr "h")] [] empty_world eq_refl).
Defined.

(** C9, as stated, fails: the metadata of a processed record is not the
    source record, it carries three more fields. *)
Lemma C9_metadata_not_verbatim :
  ~ (forall (k : kind) (raw : pydict) (d : Document),
       normalize k raw = Ok d -> metadata d = raw).
Proof.
  intros H.
  pose proof (H Transaction [("ID", VStr "t")] _ eq_refl) as E.
  vm_compute in E. discriminate.
Qed.

(** C9 (amended).  The metadata of a document is the source record with
    the three fields [_document_type], [_text] and [_id] written into it
    (added, or overwritten where the source had them); every other field
    of the source record is there with its value, in the original order,
    and no other field appears.  It is the very item that was queued. *)
Theorem C9_metadata_keeps_source_fields (k : kind) (raw : pydict) (d : Document) :
  normalize k raw = Ok d ->
  metadata d
  = Py.dict_set "_id" (id d)
      (Py.dict_set "_text" (text d)
         (Py.dict_set "_document_type" (document_type d) raw))
  /\ source_fields (metadata d) = source_fields raw
  /\ (forall key, derived_key key = false ->
                  Py.dict_get key (metadata d) = Py.dict_get key raw)
  /\ (forall w, process k (VDict raw) w = queue_put (metadata d) w)
  /\ select_processed (metadata d) = Ok d.
Proof.
  intros H.
  assert (S : exists type_name txt ident,
             d = mkDocument (VStr ident) (VStr type_name) (VStr txt)
                   (stamped type_name txt ident raw)).
  { destruct k.
    - rewrite normalize_block in H.
      destruct (Py.iter (Py.get raw "Data" (VList []))); [| discriminate].
      injection H as <-. now repeat eexists.
    - rewrite normalize_transaction in H. injection H as <-. now repeat eexists. }
  destruct S as (type_name & txt & ident & ->).
  cbn [metadata id text document_type].
  repeat split.
  - apply source_fields_stamped.
  - intros key Hk. unfold stamped.
    now rewrite !dict_get_set_other by (apply derived_key_false; [reflexivity | exact Hk]).
  - intros w. apply (process_normalized _ _ _ w H).
  - apply select_stamped.
Qed.

Lemma C9_metadata_keeps_source_fields_witness :
  source_fields
    (stamped "transaction" (transaction_text [("ID", VStr "t")]) "tx_t" [("ID", VStr "t")])
  = [("ID", VStr "t")].
Proof.
  exact (proj1 (proj2 (C9_metadata_keeps_source_fields Transaction [("ID", VStr "t")]
                         (mkDocument (VStr "tx_t") (VStr "transaction")
                            (VStr (transaction_text [("ID", VStr "t")]))
                            (stamped "transaction" (transaction_text [("ID", VStr "t")])
                               "tx_t" [("ID", VStr "t")]))
                         eq_refl))).
Defined.

(* ================================================================== *)
(** * The embedding engine                                             *)
(* ================================================================== *)

Lemma list_times_length {A : Type} (x : A) (n : Z) :
  List.length (list_times x n) = Z.to_nat n.
Proof. apply repeat_length. Qed.

Lemma list_times_all {A : Type} (x : A) (n : Z) :
  Forall (fun y => y = x) (list_times x n).
Proof.
  unfold list_times. induction (Z.to_nat n) as [| m IH]; cbn [repeat]; now constructor.
Qed.

Lemma list_times_len {A B : Type} (x : A) (l : list B) :
  list_times x (Py.len l) = repeat x (List.length l).
Proof. unfold list_times, Py.len. now rewrite Nat2Z.id. Qed.

(** C4.  When the model call fails, [embed_text] returns normally, with
    the vector of [D] zeros, [D] being the dimension the model reports;
    the failure is logged and goes no further. *)
Theorem C4_embed_text_zero_vector
  (model : SentenceTransformer) (text : string) (e : exn) (w : world) :
  encode_one model text = Raise e ->
  let D := get_sentence_embedding_dimension model in
  exists v,
    embed_text model text w
    = (Ok v, mkWorld (queue w) (added w)
               (trace w ++ [EvLogError "Error generating embedding: " e]))
    /\ v = repeat 0%float (Z.to_nat D)
    /\ List.length v = Z.to_nat D
    /\ ((0 <= D)%Z -> Py.len v = D)
    /\ Forall (fun x => x = 0%float) v.
Proof.
  intros H D. exists (list_times 0%float D). repeat split.
  - unfold embed_text, try_except, bind, lift. rewrite H. reflexivity.
  - apply list_times_length.
  - intros HD. unfold Py.len. rewrite list_times_length. now apply Z2Nat.id.
  - apply list_times_all.
Qed.

Lemma C4_embed_text_zero_vector_witness :
  exists v,
    embed_text (mkModel (fun _ => Raise (OtherException "model down"))
                  (fun _ => Raise (OtherException "model down")) 3)
      "some text" empty_world
    = (Ok v, mkWorld [] []
               [EvLogError "Error generating embedding: " (OtherException "model down")])
    /\ v = [0%float; 0%float; 0%float].
Proof.
  destruct (C4_embed_text_zero_vector
              (mkModel (fun _ => Raise (OtherException "model down"))
                 (fun _ => Raise (OtherException "model down")) 3)
              "some text" (OtherException "model down") empty_world eq_refl)
    as (v & Hrun & Hv & _).
  exists v. split; [exact Hrun | exact Hv].
Defined.

(** C5.  [embed_batch] returns one vector per input text, in the order of
    the inputs: whatever relation holds, row by row, between the texts
    and the matrix the model returns also holds between the texts and the
    result; and when the model call fails the result is the zero vector of
    length [D] repeated once per text.  It never raises. *)
Theorem C5_embed_batch_one_per_text
  (model : SentenceTransformer) (texts : list string)
  (R : string -> list float -> Prop) (w : world) :
  (forall rows, encode_many model texts = Ok rows -> Forall2 R texts rows) ->
  let D := get_sentence_embedding_dimension model in
  exists out w',
    embed_batch model texts w = (Ok out, w')
    /\ List.length out = List.length texts
    /\ (forall rows, encode_many model texts = Ok rows ->
                     out = rows /\ Forall2 R texts out /\ w' = w)
    /\ (forall e, encode_many model texts = Raise e ->
                  out = repeat (repeat 0%float (Z.to_nat D)) (List.length texts)
                  /\ Forall (fun v => v = repeat 0%float (Z.to_nat D)) out).
Proof.
  intros Hmodel D.
  unfold embed_batch, try_except, bind, lift.
  destruct (encode_many model texts) as [rows | e] eqn:E.
  - exists rows, w. repeat split.
    + symmetry. exact (Forall2_length (Hmodel rows eq_refl)).
    + now injection H as <-.
    + injection H as <-. now apply Hmodel.
    + discriminate.
    + discriminate.
  - eexists. eexists. split; [reflexivity |].
    rewrite list_times_len. repeat split.
    + apply repeat_length.
    + discriminate.
    + discriminate.
    + discriminate.
    + apply Forall_forall. intros v Hv. now apply repeat_spec in Hv.
Qed.

Lemma C5_embed_batch_one_per_text_witness :
  (exists out w',
      embed_batch (mkModel (fun _ => Raise TypeError) (fun _ => Raise TypeError) 2)
        ["a"; "b"; "c"] empty_world
      = (Ok out, w')
      /\ out = [[0%float; 0%float]; [0%float; 0%float]; [0%float; 0%float]])
  /\ (exists out w',
         embed_batch (mkModel (fun _ => Ok [1%float])
                        (fun texts => Ok (map (fun _ => [1%float]) texts)) 1)
           ["a"; "b"] empty_world
         = (Ok out, w')
         /\ Forall2 (fun _ v => v = [1%float]) ["a"; "b"] out).
Proof.
  split.
  - destruct (C5_embed_batch_one_per_text
                (mkModel (fun _ => Raise TypeError) (fun _ => Raise TypeError) 2)
                ["a"; "b"; "c"] (fun _ _ => True) empty_world)
      as (out & w' & Hrun & _ & _ & Hzero).
    + intros rows H. discriminate H.
    + exists out, w'. split; [exact Hrun |].
      exact (proj1 (Hzero TypeError eq_refl)).
  - destruct (C5_embed_batch_one_per_text
                (mkModel (fun _ => Ok [1%float])
                   (fun texts => Ok (map (fun _ => [1%float]) texts)) 1)
                ["a"; "b"] (fun _ v => v = [1%float]) empty_world)
      as (out & w' & Hrun & _ & Hrows & _).
    + intros rows H. injection H as <-. repeat constructor.
    + exists out, w'. split; [exact Hrun |].
      exact (proj1 (proj2 (Hrows _ eq_refl))).
Defined.

(* ================================================================== *)
(** * The producer side only ever extends the world                    *)
(* ================================================================== *)

#[local] Open Scope list_scope.

Lemma puts_app (a b : list event) : puts (a ++ b) = puts a ++ puts b.
Proof. unfold puts. apply flat_map_app. Qed.

Lemma puts_map_EvPut (items : list pydict) : puts (map EvPut items) = items.
Proof.
  induction items as [| x items IH]; cbn [map puts flat_map app] in *;
    [reflexivity | now f_equal].
Qed.

Lemma extend_nil (w : world) : extend w [] = w.
Proof. destruct w. unfold extend. cbn. now rewrite !app_nil_r. Qed.

Lemma extend_extend (w : world) (a b : list event) :
  extend (extend w a) b = extend w (a ++ b).
Proof.
  unfold extend. cbn [queue added trace]. now rewrite puts_app, !app_assoc.
Qed.

Lemma emit_extend (ev : event) (w : world) :
  (forall item, ev <> EvPut item) -> emit ev w = (Ok tt, extend w [ev]).
Proof.
  intros H. unfold emit, extend. destruct ev; cbn [puts flat_map app];
    try (now rewrite app_nil_r). now elim (H item).
Qed.

Lemma process_extend (k : kind) (raw : pyval) (w : world) :
  process k raw w
  = match staged k raw with
    | Ok item => (Ok tt, extend w [EvPut item])
    | Raise e => (Raise e, w)
    end.
Proof. rewrite process_staged. now destruct (staged k raw). Qed.

Lemma producer_ret {A : Type} (a : A) : producer (ret a).
Proof. intros w. exists []. now rewrite extend_nil. Qed.

Lemma producer_lift {A : Type} (r : result A) : producer (lift r).
Proof. intros w. exists []. now rewrite extend_nil. Qed.

Lemma producer_raise {A : Type} (e : exn) : producer (@raise A e).
Proof. intros w. exists []. now rewrite extend_nil. Qed.

Lemma producer_emit (ev : event) :
  (forall item, ev <> EvPut item) -> producer (emit ev).
Proof. intros H w. exists [ev]. now rewrite emit_extend. Qed.

Lemma producer_queue_put (item : pydict) : producer (queue_put item).
Proof. intros w. now exists [EvPut item]. Qed.

Lemma producer_bind {A B : Type} (m : M A) (k : A -> M B) :
  producer m -> (forall a, producer (k a)) -> producer (bind m k).
Proof.
  intros Hm Hk w. unfold bind.
  destruct (Hm w) as [evs1 E1].
  destruct (m w) as [[a | e] w1]; cbn [snd] in E1 |- *; subst w1.
  - destruct (Hk a (extend w evs1)) as [evs2 E2].
    exists (evs1 ++ evs2). now rewrite E2, extend_extend.
  - now exists evs1.
Qed.

Lemma producer_try_except {A : Type} (body : M A) (handler : exn -> M A) :
  producer body -> (forall e, producer (handler e)) -> producer (try_except body handler).
Proof.
  intros Hb Hh w. unfold try_except.
  destruct (Hb w) as [evs1 E1].
  destruct (body w) as [[a | e] w1]; cbn [snd] in E1 |- *; subst w1.
  - now exists evs1.
  - destruct (Hh e (extend w evs1)) as [evs2 E2].
    exists (evs1 ++ evs2). now rewrite E2, extend_extend.
Qed.

Lemma producer_for_each {A : Type} (l : list A) (body : A -> M unit) :
  (forall x, producer (body x)) -> producer (for_each l body).
Proof.
  intros Hb. induction l as [| x l IH]; cbn [for_each].
  - apply producer_ret.
  - apply producer_bind; [apply Hb | intros _; exact IH].
Qed.

Lemma producer_process (k : kind) (raw : pyval) : producer (process k raw).
Proof.
  intros w. rewrite process_extend.
  destruct (staged k raw) as [item | e]; cbn [snd].
  - now exists [EvPut item].
  - exists []. now rewrite extend_nil.
Qed.

Lemma producer_if {A : Type} (b : bool) (m1 m2 : M A) :
  producer m1 -> producer m2 -> producer (if b then m1 else m2).
Proof. now destruct b. Qed.

Create HintDb producer discriminated.
#[local] Hint Resolve producer_ret producer_lift producer_raise
  producer_queue_put producer_process producer_if : producer.
#[local] Hint Extern 1 (producer (emit _)) =>
  apply producer_emit; intros ?; discriminate : producer.
#[local] Hint Extern 2 (producer (bind _ _)) =>
  apply producer_bind; [| intro] : producer.
#[local] Hint Extern 2 (producer (try_except _ _)) =>
  apply producer_try_except; [| intro] : producer.
#[local] Hint Extern 2 (producer (for_each _ _)) =>
  apply producer_for_each; intro : producer.

Lemma producer_on_update (update : pyval) : producer (on_update update).
Proof.
  unfold on_update.
  change _process_block with (process Block).
  change _process_transaction with (process Transaction).
  auto 10 with producer.
Qed.

Lemma producer_load (c : BlockPlainConnector) : producer (_load_initial_state c).
Proof.
  unfold _load_initial_state.
  change _process_block with (process Block).
  change _process_transaction with (process Transaction).
  auto 12 with producer.
Qed.

Lemma producer_stream_round (c : BlockPlainConnector) (n : nat) :
  producer (stream_round c n).
Proof.
  unfold stream_round, stream_attempt.
  apply producer_try_except; [| intro; auto with producer].
  apply producer_bind; [auto with producer | intros _].
  apply producer_bind.
  - apply producer_for_each. intro. apply producer_on_update.
  - intros _. destruct (sub_end (stream_updates c n)); auto with producer.
Qed.

Lemma producer_stream_updates (c : BlockPlainConnector) (stop : nat -> bool)
  (fuel n : nat) :
  producer (_stream_updates c stop fuel n).
Proof.
  revert n. induction fuel as [| fuel IH]; intros n; cbn [_stream_updates].
  - apply producer_ret.
  - destruct (negb (stop n)); [| apply producer_ret].
    apply producer_bind; [apply producer_stream_round | intros _; apply IH].
Qed.

(* ================================================================== *)
(** * The loading phase and the reconnect loop, step by step           *)
(* ================================================================== *)

Lemma control_puts_only (evs : list event) : Forall is_put evs -> control evs = [].
Proof.
  induction 1 as [| ev evs Hev _ IH]; [reflexivity |].
  destruct ev; try contradiction. exact IH.
Qed.

Lemma control_app (a b : list event) : control (a ++ b) = control a ++ control b.
Proof. apply filter_app. Qed.

Lemma Forall_is_put_map (items : list pydict) : Forall is_put (map EvPut items).
Proof. induction items; cbn [map]; constructor; [exact I | assumption]. Qed.

(** A loop over records that all normalise puts their items, in order. *)
Lemma for_each_staged (k : kind) (raws : list pyval) (items : list pydict) (w : world) :
  Forall2 (fun raw item => staged k raw = Ok item) raws items ->
  for_each raws (process k) w = (Ok tt, extend w (map EvPut items)).
Proof.
  intros H. revert w.
  induction H as [| raw item raws items Hst _ IH]; intros w; cbn [for_each map].
  - unfold ret. now rewrite extend_nil.
  - unfold bind. rewrite process_extend, Hst, IH, extend_extend. reflexivity.
Qed.

(** A loop over records stops at the first that raises, having put the
    items of those before it. *)
Lemma for_each_process_puts (k : kind) (raws : list pyval) (w : world) :
  exists r items,
    for_each raws (process k) w = (r, extend w (map EvPut items)).
Proof.
  revert w. induction raws as [| raw raws IH]; intros w; cbn [for_each].
  - exists (Ok tt), []. unfold ret. cbn [map]. now rewrite extend_nil.
  - unfold bind. rewrite process_extend.
    destruct (staged k raw) as [item | e].
    + destruct (IH (extend w [EvPut item])) as (r & items & E).
      exists r, (item :: items). rewrite E, extend_extend. reflexivity.
    + exists (Raise e), []. cbn [map]. now rewrite extend_nil.
Qed.

Lemma on_update_puts (update : pyval) (w : world) :
  exists r evs, on_update update w = (r, extend w evs) /\ Forall is_put evs.
Proof.
  assert (P : forall k raw,
             exists r evs, process k raw w = (r, extend w evs) /\ Forall is_put evs).
  { intros k raw. rewrite process_extend.
    destruct (staged k raw) as [item | e].
    - exists (Ok tt), [EvPut item]. split; [reflexivity | repeat constructor].
    - exists (Raise e), []. rewrite extend_nil. split; [reflexivity | constructor]. }
  assert (Q : forall r : result unit,
             exists r' evs, (r, w) = (r', extend w evs) /\ Forall is_put evs).
  { intros r. exists r, []. rewrite extend_nil. split; [reflexivity | constructor]. }
  unfold on_update, bind, lift, ret.
  destruct (Py.getitem update "type") as [ty | e]; [| apply (Q (Raise e))].
  destruct (Py.eq_str ty "newBlock").
  - destruct (Py.getitem update "data") as [data | e]; [| apply (Q (Raise e))].
    apply (P Block data).
  - destruct (Py.eq_str ty "newTransaction"); [| apply (Q (Ok tt))].
    destruct (Py.getitem update "data") as [data | e]; [| apply (Q (Raise e))].
    apply (P Transaction data).
Qed.

Lemma for_each_on_update_puts (updates : list pyval) (w : world) :
  exists r evs,
    for_each updates on_update w = (r, extend w evs) /\ Forall is_put evs.
Proof.
  revert w. induction updates as [| update updates IH]; intros w; cbn [for_each].
  - exists (Ok tt), []. unfold ret. rewrite extend_nil. split; [reflexivity | constructor].
  - unfold bind.
    destruct (on_update_puts update w) as (r1 & evs1 & E1 & P1). rewrite E1.
    destruct r1 as [u | e].
    + destruct (IH (extend w evs1)) as (r2 & evs2 & E2 & P2).
      exists r2, (evs1 ++ evs2). rewrite E2, extend_extend.
      split; [reflexivity | now apply Forall_app].
    + exists (Raise e), evs1. split; [reflexivity | exact P1].
Qed.

Lemma stream_round_handler (e : exn) (w : world) :
  (emit (EvLogError "Error streaming updates: " e) ;; emit (EvSleep 5)) w
  = (Ok tt, extend w [EvLogError "Error streaming updates: " e; EvSleep 5]).
Proof.
  unfold bind.
  rewrite emit_extend by discriminate. rewrite emit_extend by discriminate.
  now rewrite extend_extend.
Qed.

(** The attempt of a round: it subscribes and forwards what comes; it
    raises when the handling of an update does, or else when the
    subscription ends by raising. *)
Lemma stream_attempt_spec (c : BlockPlainConnector) (n : nat) (w : world) :
  exists r evs,
    stream_attempt c n w = (r, extend w (EvSubscribe n :: evs))
    /\ Forall is_put evs
    /\ (r = Ok tt -> sub_end (stream_updates c n) = None).
Proof.
  destruct (for_each_on_update_puts (sub_updates (stream_updates c n))
              (extend w [EvSubscribe n])) as (r & evs & E & P).
  unfold stream_attempt.
  unfold bind at 1. rewrite emit_extend by discriminate.
  unfold bind at 1. rewrite E, extend_extend. cbn [app].
  destruct r as [[] | e].
  - destruct (sub_end (stream_updates c n)) as [e |].
    + exists (Raise e), evs. repeat split; [exact P | discriminate].
    + exists (Ok tt), evs. repeat split. exact P.
  - exists (Raise e), evs. repeat split; [exact P | discriminate].
Qed.

(** One round of the loop: it subscribes, forwards what comes, and then
    either an exception ended it, and it logs and sleeps 5, or the
    subscription ran out, and it goes straight on. *)
Lemma stream_round_spec (c : BlockPlainConnector) (n : nat) (w : world) :
  exists evs,
    Forall is_put evs
    /\ ((exists e,
           stream_round c n w
           = (Ok tt, extend w (EvSubscribe n :: evs
                                 ++ [EvLogError "Error streaming updates: " e;
                                     EvSleep 5])))
        \/ (sub_end (stream_updates c n) = None
            /\ stream_round c n w = (Ok tt, extend w (EvSubscribe n :: evs)))).
Proof.
  destruct (stream_attempt_spec c n w) as (r & evs & E & P & Hend).
  exists evs. split; [exact P |].
  unfold stream_round, try_except. rewrite E.
  destruct r as [[] | e].
  - right. split; [now apply Hend | reflexivity].
  - left. exists e. rewrite stream_round_handler, extend_extend. reflexivity.
Qed.

Lemma load_blocks_fetch_fails (c : BlockPlainConnector) (w : world) (e : exn) :
  get_blocks c = Raise e ->
  _load_initial_state c w
  = (Ok tt, extend w [EvLogError "Error loading initial state: " e]).
Proof.
  intros Hb. unfold _load_initial_state, try_except.
  unfold bind at 1. unfold lift at 1. rewrite Hb.
  now rewrite emit_extend by discriminate.
Qed.

Lemma load_transactions_fetch_fails
  (c : BlockPlainConnector) (w : world) (bv : pyval) (bs : list pyval)
  (bitems : list pydict) (e : exn) :
  get_blocks c = Ok bv ->
  Py.iter bv = Ok bs ->
  Forall2 (fun raw item => staged Block raw = Ok item) bs bitems ->
  get_transactions c = Raise e ->
  _load_initial_state c w
  = (Ok tt, extend w (map EvPut bitems ++ [EvLogError "Error loading initial state: " e])).
Proof.
  intros Hb Hi Hs Ht. unfold _load_initial_state, try_except.
  change _process_block with (process Block).
  unfold bind at 1. unfold lift at 1. rewrite Hb.
  unfold bind at 1. unfold lift at 1. rewrite Hi.
  unfold bind at 1. rewrite (for_each_staged Block bs bitems w Hs).
  unfold bind at 1. unfold lift at 1. rewrite Ht.
  rewrite emit_extend by discriminate. now rewrite extend_extend.
Qed.

Lemma load_complete
  (c : BlockPlainConnector) (w : world) (bv tv : pyval) (bs ts : list pyval)
  (bitems titems : list pydict) :
  get_blocks c = Ok bv ->
  Py.iter bv = Ok bs ->
  Forall2 (fun raw item => staged Block raw = Ok item) bs bitems ->
  get_transactions c = Ok tv ->
  Py.iter tv = Ok ts ->
  Forall2 (fun raw item => staged Transaction raw = Ok item) ts titems ->
  _load_initial_state c w
  = (Ok tt,
     extend w
       (map EvPut (bitems ++ titems)
          ++ [EvLogInfo ("Loaded initial state: " ++ Py.str_int (Py.len bs)
                           ++ " blocks, " ++ Py.str_int (Py.len ts)
                           ++ " transactions")%string])).
Proof.
  intros Hb Hi Hs Ht Hj Hr. unfold _load_initial_state, try_except.
  change _process_block with (process Block).
  change _process_transaction with (process Transaction).
  unfold bind at 1. unfold lift at 1. rewrite Hb.
  unfold bind at 1. unfold lift at 1. rewrite Hi.
  unfold bind at 1. rewrite (for_each_staged Block bs bitems w Hs).
  unfold bind at 1. unfold lift at 1. rewrite Ht.
  unfold bind at 1. unfold lift at 1. rewrite Hj.
  unfold bind at 1. rewrite (for_each_staged Transaction ts titems _ Hr).
  rewrite emit_extend by discriminate.
  now rewrite !extend_extend, map_app, <- !app_assoc.
Qed.

(** Whatever the fetches answer, the load returns normally, having put
    some items and then written one log line. *)
Lemma load_spec (c : BlockPlainConnector) (w : world) :
  exists items ev,
    _load_initial_state c w = (Ok tt, extend w (map EvPut items ++ [ev]))
    /\ is_control ev = false
    /\ forall item, ev <> EvPut item.
Proof.
  assert (Fail : forall e items,
             exists items' ev,
               (Ok tt, extend w (map EvPut items
                                   ++ [EvLogError "Error loading initial state: " e]))
               = (Ok tt, extend w (map EvPut items' ++ [ev]))
               /\ is_control ev = false
               /\ forall item, ev <> EvPut item).
  { intros e items. exists items, (EvLogError "Error loading initial state: " e).
    repeat split. discriminate. }
  unfold _load_initial_state, try_except.
  change _process_block with (process Block).
  change _process_transaction with (process Transaction).
  unfold bind at 1. unfold lift at 1.
  destruct (get_blocks c) as [bv | e].
  2:{ rewrite emit_extend by discriminate. apply (Fail e []). }
  unfold bind at 1. unfold lift at 1.
  destruct (Py.iter bv) as [bs | e].
  2:{ rewrite emit_extend by discriminate. apply (Fail e []). }
  unfold bind at 1.
  destruct (for_each_process_puts Block bs w) as (r1 & items1 & E1). rewrite E1.
  destruct r1 as [[] | e].
  2:{ rewrite emit_extend by discriminate. rewrite extend_extend. apply Fail. }
  unfold bind at 1. unfold lift at 1.
  destruct (get_transactions c) as [tv | e].
  2:{ rewrite emit_extend by discriminate. rewrite extend_extend. apply Fail. }
  unfold bind at 1. unfold lift at 1.
  destruct (Py.iter tv) as [ts | e].
  2:{ rewrite emit_extend by discriminate. rewrite extend_extend. apply Fail. }
  unfold bind at 1.
  destruct (for_each_process_puts Transaction ts (extend w (map EvPut items1)))
    as (r2 & items2 & E2).
  rewrite E2. rewrite extend_extend, <- map_app.
  destruct r2 as [[] | e].
  2:{ rewrite emit_extend by discriminate. rewrite extend_extend. apply Fail. }
  rewrite emit_extend by discriminate. rewrite extend_extend.
  eexists. eexists. split; [reflexivity |]. split; [reflexivity | discriminate].
Qed.

Lemma start_spec (c : BlockPlainConnector) (w : world) (evs : list event) :
  _load_initial_state c w = (Ok tt, extend w evs) ->
  start c w = (Ok tt, extend w (evs ++ [EvCreateTask])).
Proof.
  intros H. unfold start, bind. rewrite H.
  rewrite emit_extend by discriminate. now rewrite extend_extend.
Qed.

(** Rounds that all end by raising, with the stop event not set: the loop
    is still going after any number of them, and each cost one sleep of 5. *)
Lemma stream_updates_failing_rounds
  (c : BlockPlainConnector) (stop : nat -> bool) (fuel n : nat) (w : world) :
  (forall i, n <= i < n + fuel -> stop i = false) ->
  (forall i, n <= i < n + fuel -> sub_end (stream_updates c i) <> None) ->
  exists evs,
    _stream_updates c stop fuel n w = (Ok Running, extend w evs)
    /\ control evs = flat_map (fun i => [EvSubscribe i; EvSleep 5]) (seq n fuel).
Proof.
  revert n w. induction fuel as [| fuel IH]; intros n w Hstop Hend;
    cbn [_stream_updates seq flat_map].
  - exists []. unfold ret. now rewrite extend_nil.
  - rewrite (Hstop n) by lia. cbn [negb]. unfold bind.
    destruct (stream_round_spec c n w) as (evs & P & [[e E] | [Hnone _]]).
    2:{ now elim (Hend n ltac:(lia)). }
    rewrite E.
    destruct (IH (S n) (extend w (EvSubscribe n :: evs
                                    ++ [EvLogError "Error streaming updates: " e;
                                        EvSleep 5])))
      as (rest & Erest & Crest).
    + intros i Hi. apply Hstop. lia.
    + intros i Hi. apply Hend. lia.
    + eexists. split.
      * rewrite Erest, extend_extend. reflexivity.
      * rewrite control_app, Crest.
        change (EvSubscribe n :: evs ++ [EvLogError "Error streaming updates: " e; EvSleep 5])
          with ([EvSubscribe n] ++ evs ++ [EvLogError "Error streaming updates: " e; EvSleep 5]).
        rewrite !control_app, (control_puts_only evs P). reflexivity.
Qed.

Lemma stream_updates_stop_seen
  (c : BlockPlainConnector) (stop : nat -> bool) (fuel n : nat) (w : world) :
  stop n = true -> _stream_updates c stop (S fuel) n w = (Ok Returned, w).
Proof. intros H. cbn [_stream_updates]. now rewrite H. Qed.

Lemma stream_updates_more
  (c : BlockPlainConnector) (stop : nat -> bool) (a b n : nat) (w w' : world) :
  _stream_updates c stop a n w = (Ok Running, w') ->
  _stream_updates c stop (a + b) n w = _stream_updates c stop b (n + a) w'.
Proof.
  revert n w. induction a as [| a IH]; intros n w H; cbn [_stream_updates Nat.add] in *.
  - unfold ret in H. injection H as <-. now rewrite Nat.add_0_r.
  - destruct (negb (stop n)); [| discriminate].
    unfold bind in *.
    destruct (stream_round c n w) as [[[] | e] w1]; [| discriminate].
    rewrite (IH _ _ H). f_equal. lia.
Qed.

(* ================================================================== *)
(** * The supervisor                                                   *)
(* ================================================================== *)

(** C7, as stated, fails: when a subscription runs out without raising,
    the loop opens the next one at once, with no delay in between. *)
Lemma C7_clean_end_no_delay :
  _stream_updates quiet_connector (fun _ => false) 2 0 empty_world
  = (Ok Running, mkWorld [] [] [EvSubscribe 0; EvSubscribe 1])
  /\ ~ (forall (c : BlockPlainConnector) (n : nat) (w : world),
          exists evs,
            trace (snd (stream_round c n w)) = trace w ++ evs ++ [EvSleep 5]).
Proof.
  split; [reflexivity |].
  intros H. destruct (H quiet_connector 0 empty_world) as [evs E].
  vm_compute in E.
  destruct evs as [| a [| b evs]]; discriminate.
Qed.

(** C7 (amended).  Whenever a round of the live subscription ends by
    raising (the subscription itself, or the handling of one of its
    updates), the supervisor logs, sleeps exactly 5 and goes back to the
    head of the loop.  So as long as the stop event is not set and the
    subscriptions keep failing, after any number of rounds the loop is
    still running and has slept exactly 5 after each attempt, neither more
    nor less; and it returns at the first round that finds the stop event
    set, without subscribing again. *)
Theorem C7_reconnect_after_fixed_delay (c : BlockPlainConnector) (stop : nat -> bool) :
  (forall n w e w1,
      stream_attempt c n w = (Raise e, w1) ->
      stream_round c n w
      = (Ok tt, extend w1 [EvLogError "Error streaming updates: " e; EvSleep 5]))
  /\ (forall n w,
         sub_end (stream_updates c n) <> None ->
         exists e evs,
           stream_attempt c n w = (Raise e, extend w (EvSubscribe n :: evs))
           /\ control evs = [])
  /\ (forall fuel n w,
         (forall i, n <= i < n + fuel -> stop i = false) ->
         (forall i, n <= i < n + fuel -> sub_end (stream_updates c i) <> None) ->
         exists evs,
           _stream_updates c stop fuel n w = (Ok Running, extend w evs)
           /\ control evs = flat_map (fun i => [EvSubscribe i; EvSleep 5]) (seq n fuel))
  /\ (forall k more n w,
         (forall i, n <= i < n + k -> stop i = false) ->
         stop (n + k) = true ->
         (forall i, n <= i < n + k -> sub_end (stream_updates c i) <> None) ->
         exists evs,
           _stream_updates c stop (k + S more) n w = (Ok Returned, extend w evs)
           /\ control evs = flat_map (fun i => [EvSubscribe i; EvSleep 5]) (seq n k)).
Proof.
  repeat split.
  - intros n w e w1 H. unfold stream_round, try_except. rewrite H.
    apply stream_round_handler.
  - intros n w Hend.
    destruct (stream_attempt_spec c n w) as (r & evs & E & P & Hnone).
    destruct r as [[] | e]; [now elim Hend; apply Hnone |].
    exists e, evs. split; [exact E | now apply control_puts_only].
  - intros fuel n w Hstop Hend. now apply stream_updates_failing_rounds.
  - intros k more n w Hstop Hset Hend.
    destruct (stream_updates_failing_rounds c stop k n w Hstop Hend) as (evs & E & C).
    exists evs. split; [| exact C].
    rewrite (stream_updates_more _ _ _ _ _ _ _ E).
    now apply stream_updates_stop_seen.
Qed.

Lemma C7_reconnect_after_fixed_delay_witness :
  exists evs,
    _stream_updates flaky_connector (fun i => Nat.leb 3 i) 4 0 empty_world
    = (Ok Returned, extend empty_world evs)
    /\ control evs
       = [EvSubscribe 0; EvSleep 5; EvSubscribe 1; EvSleep 5; EvSubscribe 2; EvSleep 5].
Proof.
  refine (proj2 (proj2 (proj2 (C7_reconnect_after_fixed_delay flaky_connector
                                 (fun i => Nat.leb 3 i))))
            3 0 0 empty_world _ _ _).
  - intros i Hi. destruct i as [| [| [| i]]]; try reflexivity. lia.
  - reflexivity.
  - intros i Hi. discriminate.
Defined.

(** C8.  In [start], followed by the task it creates, the trace is: the
    events of the load (its puts and one log line, no subscription), then
    the creation of the streaming task, then the events of the streaming
    loop.  So every document the load puts is in the queue before the
    first document of the live loop; and when both fetches answer lists of
    records that normalise, the load puts all the blocks, then all the
    pending transactions. *)
Theorem C8_load_before_stream
  (c : BlockPlainConnector) (stop : nat -> bool) (fuel : nat) (w : world) :
  exists L S,
    _load_initial_state c w = (Ok tt, extend w L)
    /\ start c w = (Ok tt, extend w (L ++ [EvCreateTask]))
    /\ snd (_stream_updates c stop fuel 0 (extend w (L ++ [EvCreateTask])))
       = extend (extend w (L ++ [EvCreateTask])) S
    /\ snd (start_then_stream c stop fuel w) = extend w (L ++ EvCreateTask :: S)
    /\ queue (snd (start_then_stream c stop fuel w)) = queue w ++ puts L ++ puts S
    /\ control L = []
    /\ (forall bv tv bs ts bitems titems,
           get_blocks c = Ok bv -> Py.iter bv = Ok bs ->
           Forall2 (fun raw item => staged Block raw = Ok item) bs bitems ->
           get_transactions c = Ok tv -> Py.iter tv = Ok ts ->
           Forall2 (fun raw item => staged Transaction raw = Ok item) ts titems ->
           puts L = bitems ++ titems).
Proof.
  destruct (load_spec c w) as (items & ev & Hload & Hctl & Hput).
  pose proof (start_spec c w _ Hload) as Hstart.
  destruct (producer_stream_updates c stop fuel 0
              (extend w ((map EvPut items ++ [ev]) ++ [EvCreateTask]))) as [S HS].
  assert (Hall : snd (start_then_stream c stop fuel w)
                 = extend w ((map EvPut items ++ [ev]) ++ EvCreateTask :: S)).
  { unfold start_then_stream, bind. rewrite Hstart, HS, extend_extend.
    now rewrite <- !app_assoc. }
  exists (map EvPut items ++ [ev]), S.
  split; [exact Hload |]. split; [exact Hstart |]. split; [exact HS |].
  split; [exact Hall |]. split; [| split].
  - rewrite Hall. unfold extend. cbn [queue].
    rewrite puts_app. cbn [puts flat_map]. now rewrite app_nil_l at 1.
  - rewrite control_app, (control_puts_only _ (Forall_is_put_map items)).
    cbn [control filter app]. now rewrite Hctl.
  - intros bv tv bs ts bitems titems Hb Hi Hs Ht Hj Hr.
    pose proof (load_complete c w bv tv bs ts bitems titems Hb Hi Hs Ht Hj Hr) as Hfull.
    rewrite Hload in Hfull. injection Hfull as Hq _.
    apply app_inv_head in Hq.
    rewrite Hq, puts_app, puts_map_EvPut. cbn [puts flat_map]. now rewrite app_nil_r.
Qed.

Lemma C8_load_before_stream_witness :
  exists L S,
    snd (start_then_stream sample_connector (fun _ => false) 1 empty_world)
    = extend empty_world (L ++ EvCreateTask :: S)
    /\ map (Py.dict_get "_id") (puts L)
       = [Some (VStr "block_0_0"); Some (VStr "block_0_1"); Some (VStr "tx_t1")]
    /\ control L = [].
Proof.
  destruct (C8_load_before_stream sample_connector (fun _ => false) 1 empty_world)
    as (L & S & _ & _ & _ & Hall & _ & Hctl & Hfull).
  exists L, S. split; [exact Hall |]. split; [| exact Hctl].
  assert (Fb : { bitems | Forall2 (fun raw item => staged Block raw = Ok item)
                             [VDict [("X", VInt 0); ("Y", VInt 0)];
                              VDict [("X", VInt 0); ("Y", VInt 1)]] bitems }).
  { eexists. constructor; [reflexivity |]. constructor; [reflexivity |]. constructor. }
  assert (Ft : { titems | Forall2 (fun raw item => staged Transaction raw = Ok item)
                             [VDict [("ID", VStr "t1"); ("Data", VStr "pay")]] titems }).
  { eexists. constructor; [reflexivity |]. constructor. }
  destruct Fb as [bitems Hb], Ft as [titems Ht].
  rewrite (Hfull _ _ _ _ bitems titems eq_refl eq_refl Hb eq_refl eq_refl Ht).
  inversion Hb as [| ? b1 ? ? H1 Hb' ]; subst.
  inversion Hb' as [| ? b2 ? ? H2 Hb'' ]; subst.
  inversion Hb''; subst.
  inversion Ht as [| ? t1 ? ? H3 Ht' ]; subst.
  inversion Ht'; subst.
  injection H1 as <-. injection H2 as <-. injection H3 as <-.
  reflexivity.
Defined.

(** C10.  The load never lets an exception out: whatever the fetches do,
    [_load_initial_state] returns normally, the queue has only grown, and
    [start] goes on to create the streaming task.  If the block fetch
    raises, nothing was put; if the fetch of the pending transactions
    raises after the blocks were handled, the block documents stay in the
    queue, the error is logged, and the streaming loop starts from there. *)
Theorem C10_load_failure_is_contained (c : BlockPlainConnector) (w : world) :
  (exists items ev,
      _load_initial_state c w = (Ok tt, extend w (map EvPut items ++ [ev]))
      /\ start c w = (Ok tt, extend w ((map EvPut items ++ [ev]) ++ [EvCreateTask]))
      /\ queue (snd (start c w)) = queue w ++ items)
  /\ (forall e,
         get_blocks c = Raise e ->
         _load_initial_state c w
         = (Ok tt, extend w [EvLogError "Error loading initial state: " e])
         /\ queue (snd (start c w)) = queue w)
  /\ (forall bv bs bitems e,
         get_blocks c = Ok bv ->
         Py.iter bv = Ok bs ->
         Forall2 (fun raw item => staged Block raw = Ok item) bs bitems ->
         get_transactions c = Raise e ->
         _load_initial_state c w
         = (Ok tt,
            extend w (map EvPut bitems ++ [EvLogError "Error loading initial state: " e]))
         /\ start c w
            = (Ok tt,
               extend w (map EvPut bitems
                           ++ [EvLogError "Error loading initial state: " e; EvCreateTask]))
         /\ queue (snd (start c w)) = queue w ++ bitems
         /\ forall stop fuel,
              start_then_stream c stop fuel w
              = _stream_updates c stop fuel 0
                  (extend w (map EvPut bitems
                               ++ [EvLogError "Error loading initial state: " e;
                                   EvCreateTask]))).
Proof.
  assert (Q : forall items evs,
             queue (extend w (map EvPut items ++ evs)) = queue w ++ items ++ puts evs).
  { intros items evs. unfold extend. cbn [queue].
    now rewrite puts_app, puts_map_EvPut. }
  split; [| split].
  - destruct (load_spec c w) as (items & ev & Hload & _ & Hput).
    exists items, ev. split; [exact Hload |].
    pose proof (start_spec c w _ Hload) as Hstart.
    split; [exact Hstart |].
    rewrite Hstart. cbn [snd]. rewrite <- app_assoc, Q.
    destruct ev; cbn [puts flat_map app];
      try (now rewrite app_nil_r). now elim (Hput item).
  - intros e Hb.
    pose proof (load_blocks_fetch_fails c w e Hb) as Hload.
    split; [exact Hload |].
    rewrite (start_spec c w _ Hload). cbn [snd].
    unfold extend. cbn [queue puts flat_map app]. now rewrite app_nil_r.
  - intros bv bs bitems e Hb Hi Hs Ht.
    pose proof (load_transactions_fetch_fails c w bv bs bitems e Hb Hi Hs Ht) as Hload.
    pose proof (start_spec c w _ Hload) as Hstart.
    rewrite <- app_assoc in Hstart. cbn [app] in Hstart.
    split; [exact Hload |]. split; [exact Hstart |]. split.
    + rewrite Hstart. cbn [snd]. rewrite Q. cbn [puts flat_map app].
      now rewrite app_nil_r.
    + intros stop fuel. unfold start_then_stream, bind. now rewrite Hstart.
Qed.

Lemma C10_load_failure_is_contained_witness :
  exists b1 b2,
    start flaky_connector empty_world
    = (Ok tt,
       mkWorld [b1; b2] []
         [EvPut b1; EvPut b2;
          EvLogError "Error loading initial state: " (OtherException "timeout");
          EvCreateTask])
    /\ Py.dict_get "_id" b1 = Some (VStr "block_0_0")
    /\ Py.dict_get "_id" b2 = Some (VStr "block_0_1").
Proof.
  pose (b1 := stamped "block" (block_text [("X", VInt 0); ("Y", VInt 0)] []) "block_0_0"
                 [("X", VInt 0); ("Y", VInt 0)]).
  pose (b2 := stamped "block" (block_text [("X", VInt 0); ("Y", VInt 1)] []) "block_0_1"
                 [("X", VInt 0); ("Y", VInt 1)]).
  exists b1, b2. split.
  - exact (proj1 (proj2 (proj2 (proj2 (C10_load_failure_is_contained flaky_connector
                                         empty_world))
                            (VList [VDict [("X", VInt 0); ("Y", VInt 0)];
                                    VDict [("X", VInt 0); ("Y", VInt 1)]])
                            [VDict [("X", VInt 0); ("Y", VInt 0)];
                             VDict [("X", VInt 0); ("Y", VInt 1)]]
                            [b1; b2] (OtherException "timeout") eq_refl eq_refl
                            (Forall2_cons _ _ (staged_block [("X", VInt 0); ("Y", VInt 0)])
                               (Forall2_cons _ _
                                  (staged_block [("X", VInt 0); ("Y", VInt 1)])
                                  (Forall2_nil _)))
                            eq_refl))).
  - split; reflexivity.
Defined.

(* ================================================================== *)
(** * The queue between the producers and the consumer                 *)
(* ================================================================== *)

Lemma pathway_connector_turn_keeps (w : world) :
  added (pathway_connector_turn w) ++ queue (pathway_connector_turn w) = added w ++ queue w.
Proof.
  unfold pathway_connector_turn, queue_get.
  destruct (queue w) as [| item rest] eqn:E.
  - now rewrite E.
  - cbn [snd add_data queue added]. now rewrite <- app_assoc.
Qed.

Lemma perform_submit (src : source) (k : kind) (raw : pyval) (w : world) :
  perform (Submit src k raw) w
  = match staged k raw with
    | Ok item => extend w [EvPut item]
    | Raise _ => w
    end.
Proof.
  cbn [perform]. rewrite process_extend. now destruct (staged k raw).
Qed.

(** Nothing is lost and nothing overtakes: what was handed to the index,
    followed by what is still queued, is the list of all submissions. *)
Lemma run_keeps_order (acts : list action) (w : world) :
  added (run acts w) ++ queue (run acts w)
  = added w ++ queue w ++ map snd (submissions acts).
Proof.
  revert w. induction acts as [| a acts IH]; intros w.
  - cbn. now rewrite app_nil_r.
  - change (run (a :: acts) w) with (run acts (perform a w)).
    rewrite IH. destruct a as [src k raw |].
    + rewrite perform_submit.
      change (submissions (Submit src k raw :: acts))
        with (match staged k raw with
              | Ok item => [(src, item)]
              | Raise _ => []
              end ++ submissions acts).
      destruct (staged k raw) as [item | e].
      * unfold extend. cbn [queue added puts flat_map map app snd].
        now rewrite <- !app_assoc.
      * reflexivity.
    + change (submissions (ConsumerTurn :: acts)) with (submissions acts).
      cbn [perform]. now rewrite !app_assoc, pathway_connector_turn_keeps.
Qed.

(** A loop of a producer over records is a run of submissions: of the
    records up to the first one that raises. *)
Lemma for_each_is_a_run (src : source) (k : kind) (raws : list pyval) (w : world) :
  exists n,
    snd (for_each raws (process k) w) = run (map (Submit src k) (firstn n raws)) w.
Proof.
  revert w. induction raws as [| raw raws IH]; intros w.
  - now exists 0.
  - cbn [for_each]. unfold bind.
    destruct (process k raw w) as [[[] | e] w1] eqn:E.
    + destruct (IH w1) as [n Hn]. exists (S n).
      cbn [firstn map]. change (run (?a :: ?l) w) with (run l (perform a w)).
      cbn [perform]. rewrite E. exact Hn.
    + exists 1. cbn [firstn map]. destruct raws; cbn [firstn map run fold_left perform];
        now rewrite E.
Qed.

(** C6.  Take any interleaving of submissions by the two sources and of
    turns of the consumer.  If one source submitted [d1] before [d2], then
    as soon as [d2] has been handed to the index, [d1] has been too, and at
    an earlier place: submissions reach the index in submission order. *)
Theorem C6_submission_order_preserved
  (acts : list action) (src : source) (d1 d2 : pydict) (i j : nat) :
  nth_error (submissions acts) i = Some (src, d1) ->
  nth_error (submissions acts) j = Some (src, d2) ->
  i < j ->
  added (run acts empty_world) ++ queue (run acts empty_world)
  = map snd (submissions acts)
  /\ (j < List.length (added (run acts empty_world)) ->
      nth_error (added (run acts empty_world)) i = Some d1
      /\ nth_error (added (run acts empty_world)) j = Some d2).
Proof.
  intros Hi Hj Hlt.
  set (w := run acts empty_world).
  assert (Inv : added w ++ queue w = map snd (submissions acts)).
  { subst w. now rewrite run_keeps_order. }
  split; [exact Inv |].
  intros Hj'.
  assert (N : forall n d, n < List.length (added w) ->
                          nth_error (submissions acts) n = Some (src, d) ->
                          nth_error (added w) n = Some d).
  { intros n d Hn Hs.
    rewrite <- (nth_error_app1 (added w) (queue w) Hn), Inv.
    rewrite nth_error_map, Hs. reflexivity. }
  split; apply N; try assumption. lia.
Qed.

Lemma C6_submission_order_preserved_witness :
  map (Py.dict_get "_id") (added (run sample_interleaving empty_world))
  = [Some (VStr "block_0_0"); Some (VStr "tx_t"); Some (VStr "block_1_0")]
  /\ nth_error (map (Py.dict_get "_id") (added (run sample_interleaving empty_world))) 0
     = Some (Some (VStr "block_0_0")).
Proof.
  split; [reflexivity |].
  rewrite nth_error_map.
  rewrite (proj1 (proj2 (C6_submission_order_preserved sample_interleaving InitialLoad
                           _ _ 0 2 eq_refl eq_refl ltac:(lia))
                    ltac:(vm_compute; lia))).
  reflexivity.
Defined.

(* ================================================================== *)
(** * More on the normaliser                                           *)
(* ================================================================== *)

Lemma listing_app (start : Z) (a b : list pyval) :
  listing start (a ++ b) = (listing start a ++ listing (start + Py.len a) b)%string.
Proof.
  revert start. induction a as [| x a IH]; intros start; cbn [app listing].
  - unfold Py.len. cbn [List.length Z.of_nat]. now rewrite Z.add_0_r.
  - rewrite IH, !append_assoc.
    replace (start + 1 + Py.len a)%Z with (start + Py.len (x :: a))%Z; [reflexivity |].
    unfold Py.len. cbn [List.length]. lia.
Qed.

Lemma block_text_app (raw : pydict) (a b : list pyval) :
  block_text raw (a ++ b) = (block_text raw a ++ listing (1 + Py.len a) b)%string.
Proof.
  unfold block_text. rewrite listing_app, !append_assoc. reflexivity.
Qed.

(** The transactions of a block are listed one per line, numbered from 1
    in the order of [Data]: the one that has [before] in front of it is on
    the line numbered [len(before) + 1]. *)
Theorem block_listing_numbered
  (raw : pydict) (before after : list pyval) (tx : pyval) :
  Py.dict_get "Data" raw = Some (VList (before ++ tx :: after)) ->
  exists d,
    normalize Block raw = Ok d
    /\ text d
       = VStr (block_text raw before
                 ++ ("  " ++ Py.str_int (Py.len before + 1) ++ ". " ++ Py.str tx ++ Py.NL)
                 ++ listing (Py.len before + 2) after)%string.
Proof.
  intros H. rewrite normalize_block. unfold Py.get. rewrite H. cbn [Py.iter].
  eexists. split; [reflexivity |]. cbn [text].
  rewrite block_text_app. cbn [listing]. rewrite !append_assoc.
  replace (1 + Py.len before)%Z with (Py.len before + 1)%Z by lia.
  replace (Py.len before + 1 + 1)%Z with (Py.len before + 2)%Z by lia.
  reflexivity.
Qed.

Lemma block_listing_numbered_witness :
  exists d,
    normalize Block [("Data", VList [VStr "a"; VStr "b"; VStr "c"])] = Ok d
    /\ text d
       = VStr (block_text [("Data", VList [VStr "a"; VStr "b"; VStr "c"])] [VStr "a"]
                 ++ ("  2. b" ++ Py.NL) ++ ("  3. c" ++ Py.NL))%string.
Proof.
  exact (block_listing_numbered [("Data", VList [VStr "a"; VStr "b"; VStr "c"])]
           [VStr "a"] [VStr "c"] (VStr "b") eq_refl).
Defined.

Lemma shown_agree (r1 r2 : pydict) (field : string) :
  Py.dict_get field r1 = Py.dict_get field r2 -> shown r1 field = shown r2 field.
Proof. unfold shown. now intros ->. Qed.

Lemma get_agree (r1 r2 : pydict) (field : string) (default : pyval) :
  Py.dict_get field r1 = Py.dict_get field r2 ->
  Py.get r1 field default = Py.get r2 field default.
Proof. unfold Py.get. now intros ->. Qed.

(** Id, text and kind of a document depend on the consumed fields of the
    source record only: two records that agree on them, whatever else they
    hold and in whatever order, normalise alike. *)
Theorem normalize_reads_consumed_fields_only
  (k : kind) (r1 r2 : pydict) (d1 : Document) :
  (forall field, In field (consumed_fields k) ->
                 Py.dict_get field r1 = Py.dict_get field r2) ->
  normalize k r1 = Ok d1 ->
  exists d2,
    normalize k r2 = Ok d2
    /\ id d2 = id d1 /\ text d2 = text d1 /\ document_type d2 = document_type d1.
Proof.
  intros Hagree H1.
  assert (A : forall field, In field (consumed_fields k) ->
                            shown r1 field = shown r2 field).
  { intros f Hf. apply shown_agree. now apply Hagree. }
  assert (G : forall field default, In field (consumed_fields k) ->
                                    Py.get r1 field default = Py.get r2 field default).
  { intros f dflt Hf. apply get_agree. now apply Hagree. }
  destruct k.
  - rewrite normalize_block in H1 |- *.
    rewrite <- (G "Data") by (cbn; tauto).
    destruct (Py.iter (Py.get r1 "Data" (VList []))) as [data | e]; [| discriminate].
    injection H1 as <-. eexists. split; [reflexivity |]. cbn [id text document_type].
    unfold block_id, block_text.
    rewrite <- !(G "X"), <- !(G "Y") by (cbn; tauto).
    rewrite <- (A "X"), <- (A "Y"), <- (A "Hash"), <- (A "PrevHashX"),
      <- (A "PrevHashY"), <- (A "Context"), <- (A "Timestamp") by (cbn; tauto).
    repeat split.
  - rewrite normalize_transaction in H1 |- *.
    injection H1 as <-. eexists. split; [reflexivity |]. cbn [id text document_type].
    unfold transaction_id, transaction_text.
    rewrite <- (G "ID") by (cbn; tauto).
    rewrite <- (A "ID"), <- (A "Data") by (cbn; tauto).
    repeat split.
Qed.

Lemma normalize_reads_consumed_fields_only_witness :
  exists d2,
    normalize Transaction [("note", VStr "x"); ("Data", VInt 1); ("ID", VStr "t")] = Ok d2
    /\ id d2 = VStr "tx_t"
    /\ text d2 = VStr ("Transaction t" ++ Py.NL ++ "Data: 1" ++ Py.NL)%string
    /\ document_type d2 = VStr "transaction".
Proof.
  refine (normalize_reads_consumed_fields_only Transaction
            [("ID", VStr "t"); ("Data", VInt 1)]
            [("note", VStr "x"); ("Data", VInt 1); ("ID", VStr "t")]
            (mkDocument (VStr "tx_t") (VStr "transaction")
               (VStr ("Transaction t" ++ Py.NL ++ "Data: 1" ++ Py.NL)%string)
               (stamped "transaction"
                  ("Transaction t" ++ Py.NL ++ "Data: 1" ++ Py.NL)%string "tx_t"
                  [("ID", VStr "t"); ("Data", VInt 1)]))
            _ eq_refl).
  intros field [<- | [<- | []]]; reflexivity.
Defined.

(** The kind tag and the id always go together, whatever the record holds
    (its own [_document_type] or [_id] included): a document made by
    [_process_block] is tagged ["block"] and its id starts with
    ["block_"], one made by [_process_transaction] is tagged
    ["transaction"] and its id starts with ["tx_"]. *)
Theorem document_type_matches_id_prefix (k : kind) (raw : pydict) (d : Document) :
  normalize k raw = Ok d ->
  document_type d = VStr (kind_name k)
  /\ (exists rest, id d = VStr (id_prefix k ++ rest)%string)
  /\ Py.dict_get "_document_type" (metadata d) = Some (VStr (kind_name k))
  /\ Py.dict_get "_id" (metadata d) = Some (id d).
Proof.
  intros H.
  assert (S : exists txt rest,
             d = mkDocument (VStr (id_prefix k ++ rest)%string) (VStr (kind_name k))
                   (VStr txt)
                   (stamped (kind_name k) txt (id_prefix k ++ rest)%string raw)).
  { destruct k.
    - rewrite normalize_block in H.
      destruct (Py.iter (Py.get raw "Data" (VList []))); [| discriminate].
      injection H as <-. now repeat eexists.
    - rewrite normalize_transaction in H. injection H as <-. now repeat eexists. }
  destruct S as (txt & rest & ->). cbn [document_type id metadata].
  split; [reflexivity |]. split; [now exists rest |]. unfold stamped. split.
  - rewrite (dict_get_set_other "_document_type" "_id") by reflexivity.
    rewrite (dict_get_set_other "_document_type" "_text") by reflexivity.
    apply dict_get_set_same.
  - apply dict_get_set_same.
Qed.

Lemma document_type_matches_id_prefix_witness :
  document_type
    (mkDocument (VStr "tx_7") (VStr "transaction")
       (VStr (transaction_text [("ID", VInt 7); ("_document_type", VStr "block")]))
       (stamped "transaction"
          (transaction_text [("ID", VInt 7); ("_document_type", VStr "block")]) "tx_7"
          [("ID", VInt 7); ("_document_type", VStr "block")]))
  = VStr "transaction".
Proof.
  exact (proj1 (document_type_matches_id_prefix Transaction
                  [("ID", VInt 7); ("_document_type", VStr "block")] _ eq_refl)).
Defined.

(** Handling a record is all or nothing.  Either it puts one item and
    does nothing else, or it raises [TypeError] and leaves queue and trace
    as they were; and it raises only for a record that is not a [dict] or,
    for a block, whose [Data] cannot be iterated. *)
Theorem process_all_or_nothing (k : kind) (raw : pyval) (w : world) :
  (exists item, process k raw w = queue_put item w)
  \/ (process k raw w = (Raise TypeError, w)
      /\ ((forall d, raw <> VDict d)
          \/ (k = Block
              /\ exists d,
                   raw = VDict d
                   /\ Py.iter (Py.get d "Data" (VList [])) = Raise TypeError))).
Proof.
  rewrite process_staged.
  destruct raw as [| b | z | r | s | l | d];
    try (right; split; [now destruct k | left; intros d' Hd; discriminate Hd]).
  destruct k.
  - rewrite staged_block.
    destruct (Py.iter (Py.get d "Data" (VList []))) as [data | e] eqn:E.
    + left. now eexists.
    + assert (e = TypeError) as ->.
      { unfold Py.iter in E. destruct (Py.get d "Data" (VList [])); congruence. }
      right. split; [reflexivity |]. right. split; [reflexivity |]. now exists d.
  - rewrite staged_transaction. left. now eexists.
Qed.

(* ================================================================== *)
(** * More on the supervisor                                           *)
(* ================================================================== *)

Lemma for_each_handled {A : Type} (body : A -> M unit) (l : list A)
  (itemss : list (list pydict)) (w : world) :
  Forall2 (fun x items => forall w, body x w = (Ok tt, extend w (map EvPut items)))
    l itemss ->
  for_each l body w = (Ok tt, extend w (map EvPut (List.concat itemss))).
Proof.
  intros H. revert w.
  induction H as [| x items l itemss Hx _ IH]; intros w; cbn [for_each List.concat map].
  - unfold ret. now rewrite extend_nil.
  - unfold bind. rewrite Hx, IH, extend_extend, map_app. reflexivity.
Qed.

Lemma for_each_stops {A : Type} (body : A -> M unit) (good rest : list A) (bad : A)
  (w w1 w2 : world) (e : exn) :
  for_each good body w = (Ok tt, w1) ->
  body bad w1 = (Raise e, w2) ->
  for_each (good ++ bad :: rest) body w = (Raise e, w2).
Proof.
  revert w. induction good as [| x good IH]; intros w Hg Hb; cbn [for_each app] in *.
  - unfold ret in Hg. injection Hg as <-. unfold bind. now rewrite Hb.
  - unfold bind in *. destruct (body x w) as [[[] | e'] w'].
    + now apply IH.
    + discriminate.
Qed.


(** Handling an update does not look at the world. *)
Lemma on_update_uniform (update : pyval) :
  exists r evs,
    Forall is_put evs /\ forall w, on_update update w = (r, extend w evs).
Proof.
  assert (P : forall k data,
             exists r evs,
               Forall is_put evs /\ forall w, process k data w = (r, extend w evs)).
  { intros k data. destruct (staged k data) as [item | e] eqn:E.
    - exists (Ok tt), [EvPut item]. split; [repeat constructor |].
      intros w. now rewrite process_extend, E.
    - exists (Raise e), []. split; [constructor |].
      intros w. now rewrite process_extend, E, extend_nil. }
  assert (Q : forall r : result unit,
             exists r' evs,
               Forall is_put evs /\ forall w : world, (r, w) = (r', extend w evs)).
  { intros r. exists r, []. split; [constructor |]. intros w. now rewrite extend_nil. }
  unfold on_update, bind, lift, ret.
  destruct (Py.getitem update "type") as [type | e]; [| apply (Q (Raise e))].
  destruct (Py.eq_str type "newBlock").
  - destruct (Py.getitem update "data") as [data | e]; [| apply (Q (Raise e))].
    apply (P Block data).
  - destruct (Py.eq_str type "newTransaction"); [| apply (Q (Ok tt))].
    destruct (Py.getitem update "data") as [data | e]; [| apply (Q (Raise e))].
    apply (P Transaction data).
Qed.

Lemma for_each_on_update_uniform (updates : list pyval) :
  exists r evs,
    Forall is_put evs /\ forall w, for_each updates on_update w = (r, extend w evs).
Proof.
  induction updates as [| update updates IH]; cbn [for_each].
  - exists (Ok tt), []. split; [constructor |]. intros w. unfold ret. now rewrite extend_nil.
  - destruct (on_update_uniform update) as (r1 & evs1 & P1 & H1).
    destruct r1 as [[] | e].
    + destruct IH as (r2 & evs2 & P2 & H2).
      exists r2, (evs1 ++ evs2). split; [now apply Forall_app |].
      intros w. unfold bind. now rewrite H1, H2, extend_extend.
    + exists (Raise e), evs1. split; [exact P1 |].
      intros w. unfold bind. now rewrite H1.
Qed.

Lemma stream_attempt_uniform (c : BlockPlainConnector) (n : nat) :
  exists r evs,
    Forall is_put evs
    /\ forall w, stream_attempt c n w = (r, extend w (EvSubscribe n :: evs)).
Proof.
  destruct (for_each_on_update_uniform (sub_updates (stream_updates c n)))
    as (r & evs & P & H).
  assert (Open : forall r', (forall w, (match r with
                                        | Ok _ =>
                                            match sub_end (stream_updates c n) with
                                            | Some e => Raise e
                                            | None => Ok tt
                                            end
                                        | Raise e => Raise e
                                        end, extend w (EvSubscribe n :: evs))
                                       = (r', extend w (EvSubscribe n :: evs))) ->
                            forall w, stream_attempt c n w
                                      = (r', extend w (EvSubscribe n :: evs))).
  { intros r' Hr w. rewrite <- Hr. unfold stream_attempt.
    unfold bind at 1. rewrite emit_extend by discriminate.
    unfold bind at 1. rewrite H, extend_extend. cbn [app].
    destruct r as [[] | e]; [| reflexivity].
    now destruct (sub_end (stream_updates c n)). }
  eexists. exists evs. split; [exact P |]. apply Open. reflexivity.
Qed.

(** A round seen whole: it subscribes, puts what it forwards, and sleeps
    5 at its end exactly when its [try] block raised. *)
Lemma stream_round_uniform (c : BlockPlainConnector) (n : nat) :
  exists evs,
    control evs = EvSubscribe n :: (if round_raises c n then [EvSleep 5] else [])
    /\ forall w, stream_round c n w = (Ok tt, extend w evs).
Proof.
  destruct (stream_attempt_uniform c n) as (r & evs & P & H).
  assert (R : round_raises c n = match r with Raise _ => true | Ok _ => false end).
  { unfold round_raises. now rewrite (H empty_world). }
  rewrite R. destruct r as [[] | e].
  - exists (EvSubscribe n :: evs). split.
    + change (EvSubscribe n :: evs) with ([EvSubscribe n] ++ evs).
      rewrite control_app, (control_puts_only evs P). reflexivity.
    + intros w. unfold stream_round, try_except. now rewrite H.
  - exists (EvSubscribe n :: evs ++ [EvLogError "Error streaming updates: " e; EvSleep 5]).
    split.
    + change (EvSubscribe n :: evs ++ [EvLogError "Error streaming updates: " e; EvSleep 5])
        with ([EvSubscribe n] ++ evs ++ [EvLogError "Error streaming updates: " e; EvSleep 5]).
      rewrite !control_app, (control_puts_only evs P). reflexivity.
    + intros w. unfold stream_round, try_except.
      rewrite H, stream_round_handler, extend_extend. reflexivity.
Qed.

(** The loop over any rounds, failing or not, while the stop event is not
    set: it is still running, it has subscribed once per round in order,
    and it has slept 5 after exactly the rounds that raised, never after
    one that ended cleanly and never twice in a row. *)
Theorem stream_updates_sleep_pattern
  (c : BlockPlainConnector) (stop : nat -> bool) (fuel n : nat) (w : world) :
  (forall i, n <= i < n + fuel -> stop i = false) ->
  exists evs,
    _stream_updates c stop fuel n w = (Ok Running, extend w evs)
    /\ control evs
       = flat_map
           (fun i => EvSubscribe i :: (if round_raises c i then [EvSleep 5] else []))
           (seq n fuel).
Proof.
  revert n w. induction fuel as [| fuel IH]; intros n w Hstop;
    cbn [_stream_updates seq flat_map].
  - exists []. unfold ret. now rewrite extend_nil.
  - rewrite (Hstop n) by lia. cbn [negb]. unfold bind.
    destruct (stream_round_uniform c n) as (evs & C & H). rewrite H.
    destruct (IH (S n) (extend w evs)) as (rest & Erest & Crest).
    { intros i Hi. apply Hstop. lia. }
    exists (evs ++ rest). split.
    + now rewrite Erest, extend_extend.
    + now rewrite control_app, C, Crest.
Qed.

Lemma stream_updates_sleep_pattern_witness :
  exists evs,
    _stream_updates sample_connector (fun _ => false) 2 0 empty_world
    = (Ok Running, extend empty_world evs)
    /\ control evs = [EvSubscribe 0; EvSleep 5; EvSubscribe 1; EvSleep 5].
Proof.
  exact (stream_updates_sleep_pattern sample_connector (fun _ => false) 2 0 empty_world
           (fun i _ => eq_refl)).
Defined.

(** An update that cannot be handled ends the round on the spot: what the
    subscription delivered before it is queued, the error is logged, the
    supervisor sleeps 5, and what the subscription would have delivered
    after it is never handled. *)
Theorem bad_update_ends_the_round
  (c : BlockPlainConnector) (n : nat) (w : world)
  (good rest : list pyval) (bad : pyval) (itemss : list (list pydict)) (e : exn) :
  sub_updates (stream_updates c n) = good ++ bad :: rest ->
  Forall2 (fun u items => forall w, on_update u w = (Ok tt, extend w (map EvPut items)))
    good itemss ->
  (forall w, on_update bad w = (Raise e, w)) ->
  stream_round c n w
  = (Ok tt,
     extend w (EvSubscribe n :: map EvPut (List.concat itemss)
                 ++ [EvLogError "Error streaming updates: " e; EvSleep 5])).
Proof.
  intros Hsub Hgood Hbad.
  unfold stream_round, try_except, stream_attempt.
  unfold bind at 1. rewrite emit_extend by discriminate.
  unfold bind at 1. rewrite Hsub.
  rewrite (for_each_stops on_update good rest bad _ _ _ e
             (for_each_handled on_update good itemss _ Hgood) (Hbad _)).
  rewrite stream_round_handler, !extend_extend. reflexivity.
Qed.

Lemma bad_update_ends_the_round_witness :
  exists item,
    stream_round garbled_connector 0 empty_world
    = (Ok tt,
       extend empty_world
         [EvSubscribe 0; EvPut item;
          EvLogError "Error streaming updates: " (KeyError "type"); EvSleep 5])
    /\ Py.dict_get "_id" item = Some (VStr "block_1_0").
Proof.
  eexists. split.
  - refine (bad_update_ends_the_round garbled_connector 0 empty_world
              [VDict [("type", VStr "newBlock");
                      ("data", VDict [("X", VInt 1); ("Y", VInt 0)])]]
              [VDict [("type", VStr "newTransaction"); ("data", VDict [("ID", VStr "t2")])]]
              (VDict [("data", VDict [("X", VInt 2); ("Y", VInt 0)])])
              [[stamped "block" (block_text [("X", VInt 1); ("Y", VInt 0)] []) "block_1_0"
                  [("X", VInt 1); ("Y", VInt 0)]]]
              (KeyError "type") eq_refl _ _).
    + constructor; [| constructor]. intros w. reflexivity.
    + intros w. reflexivity.
  - reflexivity.
Defined.

Lemma for_each_process_stops (k : kind) (good rest : list pyval) (bad : pyval)
  (items : list pydict) (e : exn) (w : world) :
  Forall2 (fun raw item => staged k raw = Ok item) good items ->
  staged k bad = Raise e ->
  for_each (good ++ bad :: rest) (process k) w = (Raise e, extend w (map EvPut items)).
Proof.
  intros Hg Hb.
  apply (for_each_stops (process k) good rest bad w _ _ e
           (for_each_staged k good items w Hg)).
  now rewrite process_extend, Hb.
Qed.

(** One record of the snapshot that cannot be normalised ends the load:
    the blocks before it are queued, the error is logged, and neither the
    blocks after it nor any pending transaction is queued; the pending
    transactions are not looked at, whatever their fetch would answer. *)
Theorem bad_block_ends_the_load
  (c : BlockPlainConnector) (w : world) (bv : pyval)
  (good rest : list pyval) (bad : pyval) (items : list pydict) (e : exn) :
  get_blocks c = Ok bv ->
  Py.iter bv = Ok (good ++ bad :: rest) ->
  Forall2 (fun raw item => staged Block raw = Ok item) good items ->
  staged Block bad = Raise e ->
  _load_initial_state c w
  = (Ok tt, extend w (map EvPut items ++ [EvLogError "Error loading initial state: " e]))
  /\ queue (snd (_load_initial_state c w)) = queue w ++ items.
Proof.
  intros Hb Hi Hg Hbad.
  assert (E : _load_initial_state c w
              = (Ok tt, extend w (map EvPut items
                                    ++ [EvLogError "Error loading initial state: " e]))).
  { unfold _load_initial_state, try_except.
    change _process_block with (process Block).
    unfold bind at 1. unfold lift at 1. rewrite Hb.
    unfold bind at 1. unfold lift at 1. rewrite Hi.
    unfold bind at 1. rewrite (for_each_process_stops Block good rest bad items e w Hg Hbad).
    rewrite emit_extend by discriminate. now rewrite extend_extend. }
  split; [exact E |]. rewrite E. cbn [snd]. unfold extend. cbn [queue].
  rewrite puts_app, puts_map_EvPut. cbn [puts flat_map]. now rewrite app_nil_r.
Qed.

Lemma bad_block_ends_the_load_witness :
  exists item,
    _load_initial_state garbled_connector empty_world
    = (Ok tt,
       extend empty_world [EvPut item; EvLogError "Error loading initial state: " TypeError])
    /\ Py.dict_get "_id" item = Some (VStr "block_0_0").
Proof.
  eexists. split.
  - refine (proj1 (bad_block_ends_the_load garbled_connector empty_world _
                     [VDict [("X", VInt 0); ("Y", VInt 0)]]
                     [VDict [("X", VInt 0); ("Y", VInt 2)]]
                     (VDict [("X", VInt 0); ("Y", VInt 1); ("Data", VNone)])
                     [stamped "block" (block_text [("X", VInt 0); ("Y", VInt 0)] [])
                        "block_0_0" [("X", VInt 0); ("Y", VInt 0)]]
                     TypeError eq_refl eq_refl _ eq_refl)).
    constructor; [reflexivity | constructor].
  - reflexivity.
Defined.

(* ================================================================== *)
(** * More on the consumer and the rows it hands over                  *)
(* ================================================================== *)

Lemma run_app (a b : list action) (w : world) : run (a ++ b) w = run b (run a w).
Proof. unfold run. apply fold_left_app. Qed.

Lemma run_consumer_turns_empty (n : nat) (w : world) :
  queue w = [] -> run (repeat ConsumerTurn n) w = w.
Proof.
  intros H. induction n as [| n IH]; [reflexivity |].
  cbn [repeat]. change (run (?a :: ?l) w) with (run l (perform a w)).
  cbn [perform]. unfold pathway_connector_turn, queue_get. rewrite H. exact IH.
Qed.

Lemma consumer_turns_drain (n : nat) (w : world) :
  List.length (queue w) <= n ->
  queue (run (repeat ConsumerTurn n) w) = []
  /\ added (run (repeat ConsumerTurn n) w) = added w ++ queue w
  /\ trace (run (repeat ConsumerTurn n) w) = trace w ++ map EvGet (queue w).
Proof.
  revert w. induction n as [| n IH]; intros w Hn.
  - destruct (queue w) eqn:E; [| cbn in Hn; lia].
    cbn [repeat run fold_left map]. rewrite E, !app_nil_r. now repeat split.
  - cbn [repeat]. change (run (?a :: ?l) w) with (run l (perform a w)).
    cbn [perform]. unfold pathway_connector_turn, queue_get.
    destruct (queue w) as [| item rest] eqn:E.
    + rewrite run_consumer_turns_empty by exact E.
      rewrite E, !app_nil_r. now repeat split.
    + cbn [snd add_data queue added trace].
      match goal with
      | |- context [run _ ?w1] => destruct (IH w1) as (Hq & Ha & Ht)
      end.
      { cbn [queue]. cbn [List.length] in Hn. lia. }
      rewrite Hq, Ha, Ht. cbn [queue added trace map].
      now rewrite <- !app_assoc.
Qed.

(** Left alone with a queue, the consumer loop empties it: after at least
    as many turns as there are items, every item has been handed to
    [add_data], once, in queue order, and further turns change nothing. *)
Theorem consumer_drains_the_queue (n : nat) (w : world) :
  List.length (queue w) <= n ->
  queue (run (repeat ConsumerTurn n) w) = []
  /\ added (run (repeat ConsumerTurn n) w) = added w ++ queue w
  /\ trace (run (repeat ConsumerTurn n) w) = trace w ++ map EvGet (queue w).
Proof. apply consumer_turns_drain. Qed.

Lemma consumer_drains_the_queue_witness :
  queue (run (repeat ConsumerTurn 5)
           (mkWorld [[("_id", VStr "a")]; [("_id", VStr "b")]] [] [])) = []
  /\ added (run (repeat ConsumerTurn 5)
              (mkWorld [[("_id", VStr "a")]; [("_id", VStr "b")]] [] []))
     = [[("_id", VStr "a")]; [("_id", VStr "b")]].
Proof.
  destruct (consumer_drains_the_queue 5
              (mkWorld [[("_id", VStr "a")]; [("_id", VStr "b")]] [] []))
    as (Hq & Ha & _).
  - cbn. lia.
  - split; [exact Hq | exact Ha].
Defined.

Lemma staged_selects (k : kind) (raw : pyval) (item : pydict) :
  staged k raw = Ok item ->
  exists d, select_processed item = Ok d /\ metadata d = item
            /\ document_type d = VStr (kind_name k).
Proof.
  destruct raw as [| b | z | r | s | l | raw]; try (destruct k; discriminate).
  destruct k.
  - rewrite staged_block.
    destruct (Py.iter (Py.get raw "Data" (VList []))); [| discriminate].
    intros [= <-]. rewrite select_stamped. now eexists.
  - rewrite staged_transaction. intros [= <-]. rewrite select_stamped. now eexists.
Qed.


(** Nothing is lost and nothing is doubled on the way: after any
    interleaving of submissions and consumer turns, once the consumer has
    had enough further turns, the rows handed to Pathway are exactly the
    documents that were submitted, each once, in submission order, and the
    queue is empty. *)
Theorem every_submission_is_handed_over (acts : list action) (n : nat) :
  List.length (queue (run acts empty_world)) <= n ->
  added (run (acts ++ repeat ConsumerTurn n) empty_world) = map snd (submissions acts)
  /\ queue (run (acts ++ repeat ConsumerTurn n) empty_world) = [].
Proof.
  intros Hn. rewrite run_app.
  destruct (consumer_turns_drain n (run acts empty_world) Hn) as (Hq & Ha & _).
  rewrite Hq, Ha, run_keeps_order. now split.
Qed.

Lemma every_submission_is_handed_over_witness :
  map (Py.dict_get "_id")
    (added (run (sample_interleaving ++ repeat ConsumerTurn 0) empty_world))
  = [Some (VStr "block_0_0"); Some (VStr "tx_t"); Some (VStr "block_1_0")].
Proof.
  rewrite (proj1 (every_submission_is_handed_over sample_interleaving 0
                    ltac:(vm_compute; lia))).
  reflexivity.
Defined.

(** When the whole snapshot loads, the load has queued one document per
    block and per pending transaction, blocks first, and the line it logs
    states these two counts. *)
Theorem load_logs_what_it_queued
  (c : BlockPlainConnector) (w : world) (bv tv : pyval) (bs ts : list pyval)
  (bitems titems : list pydict) :
  get_blocks c = Ok bv ->
  Py.iter bv = Ok bs ->
  Forall2 (fun raw item => staged Block raw = Ok item) bs bitems ->
  get_transactions c = Ok tv ->
  Py.iter tv = Ok ts ->
  Forall2 (fun raw item => staged Transaction raw = Ok item) ts titems ->
  queue (snd (_load_initial_state c w)) = queue w ++ bitems ++ titems
  /\ List.length (queue (snd (_load_initial_state c w)))
     = List.length (queue w) + List.length bs + List.length ts
  /\ trace (snd (_load_initial_state c w))
     = trace w ++ map EvPut (bitems ++ titems)
         ++ [EvLogInfo ("Loaded initial state: " ++ Py.str_int (Py.len bitems)
                          ++ " blocks, " ++ Py.str_int (Py.len titems)
                          ++ " transactions")%string].
Proof.
  intros Hb Hi Hs Ht Hj Hr.
  rewrite (load_complete c w bv tv bs ts bitems titems Hb Hi Hs Ht Hj Hr).
  cbn [snd]. unfold extend. cbn [queue trace].
  rewrite puts_app, puts_map_EvPut. cbn [puts flat_map]. rewrite app_nil_r.
  pose proof (Forall2_length Hs) as Lb. pose proof (Forall2_length Hr) as Lt.
  split; [reflexivity |]. split.
  - rewrite !length_app. lia.
  - unfold Py.len. now rewrite Lb, Lt.
Qed.

Lemma load_logs_what_it_queued_witness :
  List.length (queue (snd (_load_initial_state sample_connector empty_world))) = 3.
Proof.
  refine (proj1 (proj2 (load_logs_what_it_queued sample_connector empty_world _ _ _ _
                         [stamped "block" (block_text [("X", VInt 0); ("Y", VInt 0)] [])
                            "block_0_0" [("X", VInt 0); ("Y", VInt 0)];
                          stamped "block" (block_text [("X", VInt 0); ("Y", VInt 1)] [])
                            "block_0_1" [("X", VInt 0); ("Y", VInt 1)]]
                         [stamped "transaction"
                            (transaction_text [("ID", VStr "t1"); ("Data", VStr "pay")])
                            "tx_t1" [("ID", VStr "t1"); ("Data", VStr "pay")]]
                         eq_refl eq_refl _ eq_refl eq_refl _))).
  - constructor; [reflexivity |]. constructor; [reflexivity |]. constructor.
  - constructor; [reflexivity |]. constructor.
Defined.

(* ================================================================== *)
(** * Embedding the rows and answering queries                         *)
(* ================================================================== *)

Lemma normalized_text_is_str (k : kind) (raw : pydict) (d : Document) :
  normalize k raw = Ok d -> exists s, text d = VStr s.
Proof.
  destruct k.
  - rewrite normalize_block.
    destruct (Py.iter (Py.get raw "Data" (VList []))); [| discriminate].
    intros [= <-]. now eexists.
  - rewrite normalize_transaction. intros [= <-]. now eexists.
Qed.



Lemma fold_append_map {A B : Type} (f : A -> B) (l : list A) (acc : list B) :
  fold_left (fun acc x => acc ++ [f x]) l acc = acc ++ map f l.
Proof.
  revert acc. induction l as [| x l IH]; intros acc; cbn [fold_left map].
  - now rewrite app_nil_r.
  - rewrite IH, <- app_assoc. reflexivity.
Qed.



(* ================================================================== *)
(** * The routes                                                       *)
(* ================================================================== *)

Lemma requests_app (a b : list Api.api_event) :
  Api.requests (a ++ b) = Api.requests a ++ Api.requests b.
Proof. unfold Api.requests. apply flat_map_app. Qed.

Ltac api_open :=
  unfold Api.try_except, Api.bind, Api.request, Api.lift, Api.lift_outcome,
    Api.log, Api.ret, Api.throw.

Ltac api_requests :=
  rewrite ?requests_app; cbn [Api.requests flat_map app]; rewrite ?app_nil_r;
  try reflexivity.

Lemma get_llm_response_returns
  (cfg : Api.Settings) (svc : Api.Services) (query context : string)
  (tr : list Api.api_event) :
  exists v tr', Api.get_llm_response cfg svc query context tr = (Api.Return v, tr').
Proof.
  unfold Api.get_llm_response.
  destruct (negb (Api.truthy (Api.LLM_API_KEY cfg))); [now eexists; eexists |].
  unfold Api.try_except.
  match goal with
  | |- context [match ?b tr with _ => _ end] => destruct (b tr) as [[a | e] tr0]
  end; now eexists; eexists.
Qed.

(** [get_llm_response] never raises; without an API key it answers with a
    fixed text and sends nothing; with a key it sends exactly one request,
    a POST to the configured address that carries the key as bearer. *)
Theorem get_llm_response_never_raises
  (cfg : Api.Settings) (svc : Api.Services) (query context : string)
  (tr : list Api.api_event) :
  exists v tr',
    Api.get_llm_response cfg svc query context tr = (Api.Return v, tr')
    /\ (Api.truthy (Api.LLM_API_KEY cfg) = false ->
        v = VStr "LLM integration not configured" /\ tr' = tr)
    /\ (Api.truthy (Api.LLM_API_KEY cfg) = true ->
        exists r,
          Api.requests tr' = Api.requests tr ++ [r]
          /\ Api.method r = Api.POST
          /\ Api.url r = Api.LLM_API_URL cfg
          /\ In ("Authorization", ("Bearer " ++ Api.LLM_API_KEY cfg)%string)
               (Api.headers r)).
Proof.
  unfold Api.get_llm_response.
  destruct (Api.truthy (Api.LLM_API_KEY cfg)) eqn:K; cbn [negb].
  - assert (Sent : forall (v : pyval) (tr' : list Api.api_event) r,
               Api.requests tr' = Api.requests tr ++ [r] ->
               Api.method r = Api.POST ->
               Api.url r = Api.LLM_API_URL cfg ->
               In ("Authorization", ("Bearer " ++ Api.LLM_API_KEY cfg)%string)
                 (Api.headers r) ->
               exists v0 tr0,
                 (Api.Return v, tr') = (Api.Return v0, tr0)
                 /\ (true = false -> v0 = VStr "LLM integration not configured" /\ tr0 = tr)
                 /\ (true = true ->
                     exists r0,
                       Api.requests tr0 = Api.requests tr ++ [r0]
                       /\ Api.method r0 = Api.POST
                       /\ Api.url r0 = Api.LLM_API_URL cfg
                       /\ In ("Authorization", ("Bearer " ++ Api.LLM_API_KEY cfg)%string)
                            (Api.headers r0))).
    { intros v tr' r H1 H2 H3 H4. exists v, tr'. split; [reflexivity |].
      split; [discriminate |]. intros _. now exists r. }
    api_open.
    destruct (Api.send svc _) as [response | e].
    + destruct (negb (Api.response_status response =? 200)%Z).
      * destruct (Api.response_text response) as [t | e];
          (eapply Sent; [api_requests | reflexivity | reflexivity | cbn; tauto]).
      * destruct (Api.response_json response) as [result | e].
        2:{ eapply Sent; [api_requests | reflexivity | reflexivity | cbn; tauto]. }
        destruct (Py.getitem result "choices") as [choices | e].
        2:{ eapply Sent; [api_requests | reflexivity | reflexivity | cbn; tauto]. }
        destruct (Api.index choices 0) as [choice | e].
        2:{ eapply Sent; [api_requests | reflexivity | reflexivity | cbn; tauto]. }
        destruct (Py.getitem choice "message") as [message | e].
        2:{ eapply Sent; [api_requests | reflexivity | reflexivity | cbn; tauto]. }
        destruct (Py.getitem message "content") as [content | e];
          (eapply Sent; [api_requests | reflexivity | reflexivity | cbn; tauto]).
    + eapply Sent; [api_requests | reflexivity | reflexivity | cbn; tauto].
  - eexists. eexists. split; [reflexivity |]. split; [now split | discriminate].
Qed.

Lemma get_llm_response_never_raises_witness :
  exists v tr',
    Api.get_llm_response (Api.mkSettings "" "http://llm" "m" "http://chain")
      Api.sample_services "q" "c" []
    = (Api.Return v, tr')
    /\ v = VStr "LLM integration not configured" /\ tr' = [].
Proof.
  destruct (get_llm_response_never_raises
              (Api.mkSettings "" "http://llm" "m" "http://chain")
              Api.sample_services "q" "c" [])
    as (v & tr' & Hrun & Hnokey & _).
  exists v, tr'. split; [exact Hrun | exact (Hnokey eq_refl)].
Defined.

(** What [get_llm_response] answers, with a key configured, by what the
    service replies: the content of the first choice when the reply is
    well formed; a fixed text on a status other than 200; and a text that
    carries [str(e)] when the request fails or the reply has no choice. *)
Theorem get_llm_response_by_reply
  (cfg : Api.Settings) (svc : Api.Services) (query context : string)
  (tr : list Api.api_event) :
  Api.truthy (Api.LLM_API_KEY cfg) = true ->
  (forall e,
      (forall r, Api.send svc r = Raise e) ->
      fst (Api.get_llm_response cfg svc query context tr)
      = Api.Return (VStr ("Error generating AI response: "
                            ++ Api.str_exn svc (Api.Builtin e))%string))
  /\ (forall response t,
         (forall r, Api.send svc r = Ok response) ->
         Api.response_status response <> 200%Z ->
         Api.response_text response = Ok t ->
         fst (Api.get_llm_response cfg svc query context tr)
         = Api.Return (VStr "Unable to generate AI response"))
  /\ (forall response result choices choice message content,
         (forall r, Api.send svc r = Ok response) ->
         Api.response_status response = 200%Z ->
         Api.response_json response = Ok result ->
         Py.getitem result "choices" = Ok choices ->
         Api.index choices 0 = Api.Return choice ->
         Py.getitem choice "message" = Ok message ->
         Py.getitem message "content" = Ok content ->
         fst (Api.get_llm_response cfg svc query context tr) = Api.Return content)
  /\ (forall response result,
         (forall r, Api.send svc r = Ok response) ->
         Api.response_status response = 200%Z ->
         Api.response_json response = Ok result ->
         Py.getitem result "choices" = Ok (VList []) ->
         fst (Api.get_llm_response cfg svc query context tr)
         = Api.Return (VStr ("Error generating AI response: "
                               ++ Api.str_exn svc Api.IndexError)%string)).
Proof.
  intros K. unfold Api.get_llm_response. rewrite K. cbn [negb].
  split; [| split; [| split]].
  - intros e Hsend. api_open. now rewrite Hsend.
  - intros response t Hsend Hst Ht. api_open. rewrite Hsend.
    rewrite (proj2 (Z.eqb_neq _ _) Hst). cbn [negb]. now rewrite Ht.
  - intros response result choices choice message content
      Hsend Hst Hj Hc Hi Hm Hk.
    api_open. rewrite Hsend, Hst. cbn [Z.eqb Pos.eqb negb].
    now rewrite Hj, Hc, Hi, Hm, Hk.
  - intros response result Hsend Hst Hj Hc.
    api_open. rewrite Hsend, Hst. cbn [Z.eqb Pos.eqb negb].
    now rewrite Hj, Hc.
Qed.

Lemma get_llm_response_by_reply_witness :
  fst (Api.get_llm_response (Api.mkSettings "key" "http://llm" "m" "http://chain")
         (Api.mkServices
            (fun _ =>
               Ok (Api.mkResponse 200 (Ok "")
                     (Ok (VDict [("choices",
                                  VList [VDict [("message",
                                                 VDict [("content", VStr "hi")])]])]))))
            (fun _ => "err")
            (fun rs llm => Ok (Api.mkQueryResponse rs llm))
            (fun a b c d e => Ok (Api.mkBlockchainStats a b c d e)))
         "q" "c" [])
  = Api.Return (VStr "hi").
Proof.
  refine (proj1 (proj2 (proj2 (get_llm_response_by_reply
                                 (Api.mkSettings "key" "http://llm" "m" "http://chain")
                                 (Api.mkServices
                                    (fun _ =>
                                       Ok (Api.mkResponse 200 (Ok "")
                                             (Ok (VDict [("choices",
                                                          VList [VDict [("message",
                                                                         VDict [("content", VStr "hi")])]])]))))
                                    (fun _ => "err")
                                    (fun rs llm => Ok (Api.mkQueryResponse rs llm))
                                    (fun a b c d e => Ok (Api.mkBlockchainStats a b c d e)))
                                 "q" "c" [] eq_refl)))
            _ _ _ _ _ (VStr "hi") (fun _ => eq_refl) eq_refl eq_refl eq_refl eq_refl
            eq_refl eq_refl).
Defined.

(** Whatever goes wrong in [query_blockchain] or in
    [get_blockchain_stats], the only exception that leaves the route is an
    [HTTPException] with status 500, whose detail is [str(e)] of what was
    caught; and the error was logged. *)
Theorem routes_fail_with_500
  (cfg : Api.Settings) (svc : Api.Services) (req : Api.QueryRequest)
  (tr tr' : list Api.api_event) (e : Api.api_exn) :
  (Api.query_blockchain cfg svc req tr = (Api.Throw e, tr') ->
   exists cause tr0,
     e = Api.HTTPException 500 (Api.str_exn svc cause)
     /\ tr' = tr0 ++ [Api.Logged "error"
                        ("Error processing query: " ++ Api.str_exn svc cause)%string])
  /\ (Api.get_blockchain_stats cfg svc tr = (Api.Throw e, tr') ->
      exists cause tr0,
        e = Api.HTTPException 500 (Api.str_exn svc cause)
        /\ tr' = tr0 ++ [Api.Logged "error"
                           ("Error getting blockchain stats: "
                              ++ Api.str_exn svc cause)%string]).
Proof.
  split; intros H.
  - unfold Api.query_blockchain, Api.try_except in H.
    match type of H with
    | (match ?b tr with _ => _ end) = _ => destruct (b tr) as [[a | cause] tr0]
    end; [discriminate |].
    unfold Api.bind, Api.log, Api.throw in H. injection H as <- <-.
    now exists cause, tr0.
  - unfold Api.get_blockchain_stats, Api.try_except in H.
    match type of H with
    | (match ?b tr with _ => _ end) = _ => destruct (b tr) as [[a | cause] tr0]
    end; [discriminate |].
    unfold Api.bind, Api.log, Api.throw in H. injection H as <- <-.
    now exists cause, tr0.
Qed.

Lemma routes_fail_with_500_witness :
  exists tr0,
    Api.get_blockchain_stats (Api.mkSettings "" "http://llm" "m" "http://chain")
      Api.sample_services []
    = (Api.Throw (Api.HTTPException 500 "unreachable"),
       tr0 ++ [Api.Logged "error" "Error getting blockchain stats: unreachable"]).
Proof.
  destruct (proj2 (routes_fail_with_500
                     (Api.mkSettings "" "http://llm" "m" "http://chain")
                     Api.sample_services (Api.mkQueryRequest "q" 5) []
                     ([Api.Sent (Api.mkRequest Api.GET "http://chain/state" [] None)]
                        ++ [Api.Logged "error"
                              "Error getting blockchain stats: unreachable"])
                     (Api.HTTPException 500 "unreachable"))
              eq_refl)
    as (cause & tr0 & _ & Htr).
  exists [Api.Sent (Api.mkRequest Api.GET "http://chain/state" [] None)].
  reflexivity.
Defined.

(** A reply of the index service with a status other than 200 does not
    surface as the [HTTPException] raised for it: that exception is caught
    by the route's own handler and raised again as a 500 whose detail is
    its [str].  No LLM request is made. *)
Theorem query_blockchain_bad_status
  (cfg : Api.Settings) (svc : Api.Services) (req : Api.QueryRequest)
  (tr : list Api.api_event) (response : Api.http_response) (t : string) :
  (forall r, Api.url r = Api.pathway_url -> Api.send svc r = Ok response) ->
  Api.response_status response <> 200%Z ->
  Api.response_text response = Ok t ->
  exists r,
    Api.query_blockchain cfg svc req tr
    = (Api.Throw
         (Api.HTTPException 500
            (Api.str_exn svc (Api.HTTPException 500 "Error querying blockchain data"))),
       tr ++ [Api.Sent r;
              Api.Logged "error" ("Pathway API error: " ++ t)%string;
              Api.Logged "error"
                ("Error processing query: "
                   ++ Api.str_exn svc
                        (Api.HTTPException 500 "Error querying blockchain data"))%string])
    /\ Api.url r = Api.pathway_url.
Proof.
  intros Hsend Hst Ht. eexists. split.
  - unfold Api.query_blockchain. api_open.
    rewrite Hsend by reflexivity.
    rewrite (proj2 (Z.eqb_neq _ _) Hst). cbn [negb]. rewrite Ht.
    rewrite <- !app_assoc. reflexivity.
  - reflexivity.
Qed.

Lemma query_blockchain_bad_status_witness :
  fst (Api.query_blockchain (Api.mkSettings "" "http://llm" "m" "http://chain")
         (Api.mkServices
            (fun _ => Ok (Api.mkResponse 503 (Ok "busy") (Ok VNone)))
            (Api.str_exn Api.sample_services)
            (fun rs llm => Ok (Api.mkQueryResponse rs llm))
            (fun a b c d e => Ok (Api.mkBlockchainStats a b c d e)))
         (Api.mkQueryRequest "q" 5) [])
  = Api.Throw (Api.HTTPException 500 "500: Error querying blockchain data").
Proof.
  destruct (query_blockchain_bad_status
              (Api.mkSettings "" "http://llm" "m" "http://chain")
              (Api.mkServices
                 (fun _ => Ok (Api.mkResponse 503 (Ok "busy") (Ok VNone)))
                 (Api.str_exn Api.sample_services)
                 (fun rs llm => Ok (Api.mkQueryResponse rs llm))
                 (fun a b c d e => Ok (Api.mkBlockchainStats a b c d e)))
              (Api.mkQueryRequest "q" 5) []
              (Api.mkResponse 503 (Ok "busy") (Ok VNone)) "busy"
              (fun _ _ => eq_refl) ltac:(discriminate) eq_refl)
    as (r & Hrun & _).
  rewrite Hrun. reflexivity.
Defined.

(** Without an LLM key, [query_blockchain] sends one request, to the index
    service, and hands its hits to the response model with no LLM answer;
    the hits need not even be a list. *)
Theorem query_blockchain_without_key
  (cfg : Api.Settings) (svc : Api.Services) (req : Api.QueryRequest)
  (tr : list Api.api_event) (response : Api.http_response) (hits : pyval) :
  Api.truthy (Api.LLM_API_KEY cfg) = false ->
  (forall r, Api.url r = Api.pathway_url -> Api.send svc r = Ok response) ->
  Api.response_status response = 200%Z ->
  Api.response_json response = Ok hits ->
  exists tr',
    Api.query_blockchain cfg svc req tr
    = (match Api.make_QueryResponse svc hits None with
       | Ok model => Api.Return model
       | Raise e => Api.Throw (Api.HTTPException 500 (Api.str_exn svc (Api.Builtin e)))
       end, tr')
    /\ Api.requests tr'
       = Api.requests tr
           ++ [Api.mkRequest Api.POST Api.pathway_url []
                 (Some (VDict [("query", VStr (Api.query req));
                               ("top_k", VInt (Api.top_k req))]))].
Proof.
  intros K Hsend Hst Hj.
  unfold Api.query_blockchain. api_open.
  rewrite Hsend by reflexivity. rewrite Hst. cbn [Z.eqb Pos.eqb negb].
  rewrite Hj, K.
  destruct (Api.make_QueryResponse svc hits None) as [model | e];
    (eexists; split; [reflexivity | api_requests]).
Qed.

Lemma query_blockchain_without_key_witness :
  fst (Api.query_blockchain (Api.mkSettings "" "http://llm" "m" "http://chain")
         Api.sample_services (Api.mkQueryRequest "q" 5) [])
  = Api.Return
      (Api.mkQueryResponse
         (VList [VDict [("id", VStr "block_0_0"); ("text", VStr "Block A")];
                 VDict [("id", VStr "tx_t1"); ("text", VStr "Tx B")]])
         None).
Proof.
  destruct (query_blockchain_without_key
              (Api.mkSettings "" "http://llm" "m" "http://chain")
              Api.sample_services (Api.mkQueryRequest "q" 5) []
              (Api.mkResponse 200 (Ok "")
                 (Ok (VList [VDict [("id", VStr "block_0_0"); ("text", VStr "Block A")];
                             VDict [("id", VStr "tx_t1"); ("text", VStr "Tx B")]])))
              (VList [VDict [("id", VStr "block_0_0"); ("text", VStr "Block A")];
                      VDict [("id", VStr "tx_t1"); ("text", VStr "Tx B")]])
              eq_refl)
    as (tr' & Hrun & _).
  - intros r Hr. cbn [Api.sample_services Api.send]. now rewrite Hr.
  - reflexivity.
  - reflexivity.
  - rewrite Hrun. reflexivity.
Defined.

(** With an LLM key, the context is built from the hits before
    [get_llm_response] is called, outside its error handling.  So a
    failure of the LLM service does not fail the query: the answer then
    carries the error text.  But hits from which no context can be built
    (not a list, a hit without ["text"], a text that is not a string)
    fail the whole query with a 500, and no LLM request is made. *)
Theorem query_blockchain_with_key
  (cfg : Api.Settings) (svc : Api.Services) (req : Api.QueryRequest)
  (tr : list Api.api_event) (response : Api.http_response) (hits : pyval) :
  Api.truthy (Api.LLM_API_KEY cfg) = true ->
  (forall r, Api.url r = Api.pathway_url -> Api.send svc r = Ok response) ->
  Api.response_status response = 200%Z ->
  Api.response_json response = Ok hits ->
  (forall items texts context,
      Py.iter hits = Ok items ->
      Api.texts_of items = Ok texts ->
      Api.join (Py.NL ++ Py.NL)%string texts = Ok context ->
      exists answer,
        fst (Api.get_llm_response cfg svc (Api.query req) context
               (tr ++ [Api.Sent
                         (Api.mkRequest Api.POST Api.pathway_url []
                            (Some (VDict [("query", VStr (Api.query req));
                                          ("top_k", VInt (Api.top_k req))])))]))
        = Api.Return answer
        /\ fst (Api.query_blockchain cfg svc req tr)
           = match Api.make_QueryResponse svc hits (Some answer) with
             | Ok model => Api.Return model
             | Raise e =>
                 Api.Throw (Api.HTTPException 500 (Api.str_exn svc (Api.Builtin e)))
             end)
  /\ (forall e,
         (Py.iter hits = Raise e
          \/ (exists items, Py.iter hits = Ok items /\ Api.texts_of items = Raise e)
          \/ (exists items texts,
                 Py.iter hits = Ok items /\ Api.texts_of items = Ok texts
                 /\ Api.join (Py.NL ++ Py.NL)%string texts = Raise e)) ->
         exists tr',
           Api.query_blockchain cfg svc req tr
           = (Api.Throw (Api.HTTPException 500 (Api.str_exn svc (Api.Builtin e))), tr')
           /\ Api.requests tr'
              = Api.requests tr
                  ++ [Api.mkRequest Api.POST Api.pathway_url []
                        (Some (VDict [("query", VStr (Api.query req));
                                      ("top_k", VInt (Api.top_k req))]))]).
Proof.
  intros K Hsend Hst Hj. split.
  - intros items texts context Hi Ht Hc.
    destruct (get_llm_response_returns cfg svc (Api.query req) context
                (tr ++ [Api.Sent
                          (Api.mkRequest Api.POST Api.pathway_url []
                             (Some (VDict [("query", VStr (Api.query req));
                                           ("top_k", VInt (Api.top_k req))])))]))
      as (answer & tr1 & Hllm).
    exists answer. rewrite Hllm. split; [reflexivity |].
    unfold Api.query_blockchain.
    unfold Api.try_except, Api.bind at 1, Api.request.
    rewrite Hsend by reflexivity.
    unfold Api.bind at 1. rewrite Hst. cbn [Z.eqb Pos.eqb negb]. unfold Api.ret at 1.
    unfold Api.bind at 1, Api.lift at 1. rewrite Hj.
    unfold Api.bind at 1. rewrite K.
    unfold Api.bind at 1, Api.lift at 1. rewrite Hi.
    unfold Api.bind at 1, Api.lift at 1. rewrite Ht.
    unfold Api.bind at 1, Api.lift at 1. rewrite Hc.
    unfold Api.bind at 1. rewrite Hllm. unfold Api.ret at 1.
    unfold Api.lift.
    destruct (Api.make_QueryResponse svc hits (Some answer)); reflexivity.
  - intros e Hcases.
    unfold Api.query_blockchain. api_open.
    rewrite Hsend by reflexivity. rewrite Hst. cbn [Z.eqb Pos.eqb negb].
    rewrite Hj, K.
    destruct Hcases as [Hi | [(items & Hi & Ht) | (items & texts & Hi & Ht & Hc)]].
    + rewrite Hi. eexists. split; [reflexivity | api_requests].
    + rewrite Hi, Ht. eexists. split; [reflexivity | api_requests].
    + rewrite Hi, Ht, Hc. eexists. split; [reflexivity | api_requests].
Qed.

Lemma query_blockchain_with_key_witness :
  exists tr',
    Api.query_blockchain (Api.mkSettings "key" "http://llm" "m" "http://chain")
      (Api.mkServices
         (fun _ => Ok (Api.mkResponse 200 (Ok "") (Ok (VList [VDict [("id", VStr "a")]]))))
         (Api.str_exn Api.sample_services)
         (fun rs llm => Ok (Api.mkQueryResponse rs llm))
         (fun a b c d e => Ok (Api.mkBlockchainStats a b c d e)))
      (Api.mkQueryRequest "q" 5) []
    = (Api.Throw
         (Api.HTTPException 500
            (Api.str_exn Api.sample_services (Api.Builtin (KeyError "text")))), tr')
    /\ List.length (Api.requests tr') = 1.
Proof.
  destruct (proj2 (query_blockchain_with_key
                     (Api.mkSettings "key" "http://llm" "m" "http://chain")
                     (Api.mkServices
                        (fun _ => Ok (Api.mkResponse 200 (Ok "")
                                        (Ok (VList [VDict [("id", VStr "a")]]))))
                        (Api.str_exn Api.sample_services)
                        (fun rs llm => Ok (Api.mkQueryResponse rs llm))
                        (fun a b c d e => Ok (Api.mkBlockchainStats a b c d e)))
                     (Api.mkQueryRequest "q" 5) []
                     (Api.mkResponse 200 (Ok "") (Ok (VList [VDict [("id", VStr "a")]])))
                     (VList [VDict [("id", VStr "a")]])
                     eq_refl (fun _ _ => eq_refl) eq_refl eq_refl)
              (KeyError "text")
              (or_intror (or_introl (ex_intro _ [VDict [("id", VStr "a")]]
                                       (conj eq_refl eq_refl)))))
    as (tr' & Hrun & Hreq).
  exists tr'. split; [exact Hrun |]. now rewrite Hreq.
Defined.

(** [get_blockchain_stats] on a reply with status 200: each counter the
    state lacks takes its default (0, 0, 0, the position (0, 0), the empty
    text) and the values go to the stats model; a state that is not an
    object fails with a 500. *)
Theorem get_blockchain_stats_defaults
  (cfg : Api.Settings) (svc : Api.Services) (tr : list Api.api_event)
  (response : Api.http_response) (state : pyval) :
  (forall r, Api.send svc r = Ok response) ->
  Api.response_status response = 200%Z ->
  Api.response_json response = Ok state ->
  (forall fields,
      state = VDict fields ->
      fst (Api.get_blockchain_stats cfg svc tr)
      = match Api.make_BlockchainStats svc
                (Py.get fields "blockCount" (VInt 0))
                (Py.get fields "txCount" (VInt 0))
                (Py.get fields "pendingTxCount" (VInt 0))
                (Py.get fields "latestBlock" (VDict [("x", VInt 0); ("y", VInt 0)]))
                (Py.get fields "latestTimestamp" (VStr ""))
        with
        | Ok model => Api.Return model
        | Raise e => Api.Throw (Api.HTTPException 500 (Api.str_exn svc (Api.Builtin e)))
        end)
  /\ ((forall fields, state <> VDict fields) ->
      fst (Api.get_blockchain_stats cfg svc tr)
      = Api.Throw (Api.HTTPException 500 (Api.str_exn svc Api.AttributeError))).
Proof.
  intros Hsend Hst Hj. split.
  - intros fields ->. unfold Api.get_blockchain_stats. api_open.
    rewrite Hsend, Hst. cbn [Z.eqb Pos.eqb negb]. rewrite Hj.
    cbn [Api.get_method].
    destruct (Api.make_BlockchainStats svc _ _ _ _ _); reflexivity.
  - intros Hnot. unfold Api.get_blockchain_stats. api_open.
    rewrite Hsend, Hst. cbn [Z.eqb Pos.eqb negb]. rewrite Hj.
    destruct state; try reflexivity. now elim (Hnot d).
Qed.

Lemma get_blockchain_stats_defaults_witness :
  fst (Api.get_blockchain_stats (Api.mkSettings "" "http://llm" "m" "http://chain")
         (Api.mkServices
            (fun _ => Ok (Api.mkResponse 200 (Ok "") (Ok (VDict [("txCount", VInt 4)]))))
            (fun _ => "err")
            (fun rs llm => Ok (Api.mkQueryResponse rs llm))
            (fun a b c d e => Ok (Api.mkBlockchainStats a b c d e)))
         [])
  = Api.Return
      (Api.mkBlockchainStats (VInt 0) (VInt 4) (VInt 0)
         (VDict [("x", VInt 0); ("y", VInt 0)]) (VStr "")).
Proof.
  exact (proj1 (get_blockchain_stats_defaults
                  (Api.mkSettings "" "http://llm" "m" "http://chain")
                  (Api.mkServices
                     (fun _ => Ok (Api.mkResponse 200 (Ok "")
                                     (Ok (VDict [("txCount", VInt 4)]))))
                     (fun _ => "err")
                     (fun rs llm => Ok (Api.mkQueryResponse rs llm))
                     (fun a b c d e => Ok (Api.mkBlockchainStats a b c d e)))
                  [] _ _ (fun _ => eq_refl) eq_refl eq_refl)
           [("txCount", VInt 4)] eq_refl).
Defined.
